(** * BackTraderAlor: the bar feed ([data.py]) and the store ([store.py])

    A shallow embedding of the feed's load step, its session filter, the
    close-time arithmetic and the store's notification queue, followed by
    the properties the specification states about them.

    Python values are modelled as follows.
    - [int] is [Z]; [//] and [%] by a positive divisor are [Z.div] and
      [Z.modulo] (both round towards minus infinity).
    - An exception is a value [Raise e] of [result]; a function that can
      raise returns [result A].
    - [datetime], [time] and [timedelta] are records with the fields of the
      standard library's classes, as CPython implements them on a platform
      with a 32-bit C [int] and a 64-bit [time_t] (Linux): an argument that
      does not fit a C [int] raises [OverflowError] before any range is
      checked, a field out of range raises [ValueError].
    - A [list] is a [list]; [deque.append] adds at the end and
      [deque.popleft] takes from the front.
    - Prices are values of a type with decidable equality: the feed only
      compares them with [==] and hands them to the provider. *)

From Stdlib Require Import ZArith Bool Ascii String Sorted.
From stdpp Require Import base decidable option list numbers strings pretty.

Open Scope Z_scope.

(** ** Exceptions *)

Inductive exn : Set :=
| ValueError
| OverflowError
| IndexError
| NotImplementedError
| OSError.

Inductive result (A : Type) : Type :=
| Ok (a : A)
| Raise (e : exn).
Arguments Ok {A} a.
Arguments Raise {A} e.

(** Sequencing: the first exception raised ends the computation. *)
#[global] Instance result_ret : MRet result := fun A a => Ok a.
#[global] Instance result_bind : MBind result := fun A B k r =>
  match r with
  | Ok a => k a
  | Raise e => Raise e
  end.

(** ** The standard library's [datetime] module *)

Module Datetime.

Definition MINYEAR : Z := 1.
Definition MAXYEAR : Z := 9999.
Definition MAXORDINAL : Z := 3652059.

Record time : Set := mk_time
  { t_hour : Z; t_minute : Z; t_second : Z; t_microsecond : Z }.

Record datetime : Set := mk_datetime
  { year : Z; month : Z; day : Z;
    hour : Z; minute : Z; second : Z; microsecond : Z }.

Record timedelta : Set := mk_timedelta
  { td_days : Z; td_seconds : Z; td_microseconds : Z }.

(** [time.min] and [datetime.min]. *)
Definition time_min : time := mk_time 0 0 0 0.
Definition datetime_min : datetime := mk_datetime 1 1 1 0 0 0 0.

Definition is_leap (y : Z) : bool :=
  (y mod 4 =? 0) && (negb (y mod 100 =? 0) || (y mod 400 =? 0)).

Definition days_in_month_table (m : Z) : Z :=
  if m =? 2 then 28
  else if (m =? 4) || (m =? 6) || (m =? 9) || (m =? 11) then 30
  else 31.

Definition days_in_month (y m : Z) : Z :=
  if (m =? 2) && is_leap y then 29 else days_in_month_table m.

(** Days before the first of month [m] in a year that is not a leap year. *)
Definition days_before_month_table (m : Z) : Z :=
  match m with
  | 1 => 0 | 2 => 31 | 3 => 59 | 4 => 90 | 5 => 120 | 6 => 151
  | 7 => 181 | 8 => 212 | 9 => 243 | 10 => 273 | 11 => 304 | _ => 334
  end.

Definition days_before_year (y : Z) : Z :=
  let y1 := y - 1 in y1 * 365 + y1 / 4 - y1 / 100 + y1 / 400.

Definition days_before_month (y m : Z) : Z :=
  days_before_month_table m + (if (2 <? m) && is_leap y then 1 else 0).

Definition ymd2ord (y m d : Z) : Z :=
  days_before_year y + days_before_month y m + d.

Definition DI400Y : Z := 146097.
Definition DI100Y : Z := 36524.
Definition DI4Y : Z := 1461.

(** The proleptic Gregorian date of an ordinal, day 1 being 0001-01-01. *)
Definition ord2ymd (n0 : Z) : Z * Z * Z :=
  let n := n0 - 1 in
  let n400 := n / DI400Y in
  let n := n mod DI400Y in
  let y := n400 * 400 + 1 in
  let n100 := n / DI100Y in
  let n := n mod DI100Y in
  let n4 := n / DI4Y in
  let n := n mod DI4Y in
  let n1 := n / 365 in
  let n := n mod 365 in
  let y := y + n100 * 100 + n4 * 4 + n1 in
  if (n1 =? 4) || (n100 =? 4) then (y - 1, 12, 31)
  else
    let leapyear := (n1 =? 3) && (negb (n4 =? 24) || (n100 =? 3)) in
    let m := Z.shiftr (n + 50) 5 in
    let preceding :=
      days_before_month_table m + (if (2 <? m) && leapyear then 1 else 0) in
    if n <? preceding then
      let m' := m - 1 in
      let preceding' :=
        preceding - (days_in_month_table m'
                     + (if (m' =? 2) && leapyear then 1 else 0)) in
      (y, m', n - preceding' + 1)
    else (y, m, n - preceding + 1).

(** An integer that converts to a C [int]. *)
Definition fits_c_int (z : Z) : bool :=
  (-2147483648 <=? z) && (z <=? 2147483647).

(** [datetime(y, m, d, hh, mm, ss, us)]: the arguments are converted to C
    [int]s first, which raises [OverflowError] for one that does not fit;
    then every field is range checked. *)
Definition datetime_new (y m d hh mm ss us : Z) : result datetime :=
  if negb (forallb fits_c_int [y; m; d; hh; mm; ss; us])
  then Raise OverflowError
  else if (MINYEAR <=? y) && (y <=? MAXYEAR)
     && (1 <=? m) && (m <=? 12)
     && (1 <=? d) && (d <=? days_in_month y m)
     && (0 <=? hh) && (hh <=? 23)
     && (0 <=? mm) && (mm <=? 59)
     && (0 <=? ss) && (ss <=? 59)
     && (0 <=? us) && (us <=? 999999)
  then Ok (mk_datetime y m d hh mm ss us)
  else Raise ValueError.

(** [dt.replace(year=y)]: the constructor on the fields of [dt] with the
    year replaced. *)
Definition replace_year (dt : datetime) (y : Z) : result datetime :=
  datetime_new y (month dt) (day dt)
               (hour dt) (minute dt) (second dt) (microsecond dt).

(** [dt.time()]. *)
Definition time_of (dt : datetime) : time :=
  mk_time (hour dt) (minute dt) (second dt) (microsecond dt).

Definition toordinal (dt : datetime) : Z :=
  ymd2ord (year dt) (month dt) (day dt).

(** [timedelta(days=d, seconds=s, minutes=m, weeks=w)] on integers. *)
Definition timedelta_new (d s m w : Z) : result timedelta :=
  let secs := s + 60 * m in
  let days := d + 7 * w + secs / 86400 in
  if Z.abs days <=? 999999999
  then Ok (mk_timedelta days (secs mod 86400) 0)
  else Raise OverflowError.

Definition total_microseconds (td : timedelta) : Z :=
  (td_days td * 86400 + td_seconds td) * 1000000 + td_microseconds td.

(** [dt + td]. *)
Definition datetime_add (dt : datetime) (td : timedelta) : result datetime :=
  let us := microsecond dt + td_microseconds td in
  let secs :=
    hour dt * 3600 + minute dt * 60 + second dt + td_seconds td
    + us / 1000000 in
  let days := toordinal dt + td_days td + secs / 86400 in
  let secs := secs mod 86400 in
  if (0 <? days) && (days <=? MAXORDINAL) then
    let '(y, m, d) := ord2ymd days in
    Ok (mk_datetime y m d (secs / 3600) ((secs mod 3600) / 60)
                    (secs mod 60) (us mod 1000000))
  else Raise OverflowError.

(** The timestamps the platform's [gmtime] converts: those whose year,
    counted from 1900, fits a C [int]. *)
Definition GMTIME_MIN : Z := -67768040609740800.
Definition GMTIME_MAX : Z := 67768036191676799.

(** [datetime.utcfromtimestamp(ts)] for an integer number of seconds. A
    timestamp that does not fit [time_t] raises [OverflowError]; one that
    [gmtime] cannot convert raises [OSError]; one whose date falls outside
    the years 1 to 9999 raises [ValueError]. *)
Definition utcfromtimestamp (ts : Z) : result datetime :=
  if negb ((- 2 ^ 63 <=? ts) && (ts <? 2 ^ 63)) then Raise OverflowError
  else if negb ((GMTIME_MIN <=? ts) && (ts <=? GMTIME_MAX))
  then Raise OSError
  else
    let days := 719163 + ts / 86400 in
    let secs := ts mod 86400 in
    if (0 <? days) && (days <=? MAXORDINAL) then
      let '(y, m, d) := ord2ymd days in
      Ok (mk_datetime y m d (secs / 3600) ((secs mod 3600) / 60)
                      (secs mod 60) 0)
    else Raise ValueError.

(** Comparison of naive values: lexicographic on the fields. *)
Fixpoint lex_ltb (a b : list Z) : bool :=
  match a, b with
  | x :: a', y :: b' => (x <? y) || ((x =? y) && lex_ltb a' b')
  | _, _ => false
  end.

Definition time_key (t : time) : list Z :=
  [t_hour t; t_minute t; t_second t; t_microsecond t].

Definition datetime_key (dt : datetime) : list Z :=
  [year dt; month dt; day dt; hour dt; minute dt; second dt; microsecond dt].

Definition time_ltb (a b : time) : bool := lex_ltb (time_key a) (time_key b).
Definition datetime_ltb (a b : datetime) : bool :=
  lex_ltb (datetime_key a) (datetime_key b).
Definition datetime_leb (a b : datetime) : bool := negb (datetime_ltb b a).


#[global] Instance time_eq_dec : EqDecision time.
Proof. solve_decision. Defined.
#[global] Instance datetime_eq_dec : EqDecision datetime.
Proof. solve_decision. Defined.
#[global] Instance timedelta_eq_dec : EqDecision timedelta.
Proof. solve_decision. Defined.

End Datetime.

Export Datetime.

Arguments time_ltb : simpl never.
Arguments datetime_ltb : simpl never.
Arguments datetime_leb : simpl never.
Arguments datetime_new : simpl never.
Arguments timedelta_new : simpl never.
Arguments datetime_add : simpl never.
Arguments utcfromtimestamp : simpl never.

(** ** The host framework's constants *)

(** [backtrader.TimeFrame]. *)
Inductive TimeFrame : Set :=
| Ticks | MicroSeconds | Seconds | Minutes | Days | Weeks | Months | Years
| NoTimeFrame.

#[global] Instance TimeFrame_eq_dec : EqDecision TimeFrame.
Proof. solve_decision. Defined.

(** The feed statuses of the framework's feed base class. *)
Inductive Status : Set :=
| CONNECTED | DISCONNECTED | CONNBROKEN | DELAYED | LIVE
| NOTSUBSCRIBED | NOTSUPPORTED_TF | UNKNOWN.

#[global] Instance Status_eq_dec : EqDecision Status.
Proof. solve_decision. Defined.

(** [list.remove(x)]: drops the first element equal to [x]. *)
Fixpoint list_remove {A : Type} `{EqDecision A} (x : A) (l : list A)
  : result (list A) :=
  match l with
  | [] => Raise ValueError
  | y :: l' =>
      if decide (y = x) then Ok l'
      else l'' ← list_remove x l'; Ok (y :: l'')
  end.

(** ** [store.py] *)

Module Store.

Section Notifications.

(** A queued notification is the tuple [(msg, args, kwargs)]. *)
Context {Notif : Type}.

(** The deque [notifs]; [None] is the mark [get_notifications] puts. *)
Definition deque : Type := list (option Notif).

Definition put_notification (n : Notif) (notifs : deque) : deque :=
  notifs ++ [Some n].

(** [deque.popleft()]. *)
Definition popleft (notifs : deque) : result (option Notif * deque) :=
  match notifs with
  | [] => Raise IndexError
  | x :: rest => Ok (x, rest)
  end.

(** [[x for x in iter(self.notifs.popleft, None)]], with the other
    threads of the process putting notifications while it runs:
    [arrive k] is what they put after the previous step of this call
    and before call number [k] of [popleft] (numbered from 0). The
    loop ends at the first [None] popped; [fuel] bounds the number of
    calls of [popleft]. *)
Fixpoint drain (fuel : nat) (arrive : nat -> list Notif) (k : nat)
    (notifs : deque) : option (result (list Notif * deque)) :=
  match fuel with
  | O => None
  | S fuel' =>
      let notifs := notifs ++ map Some (arrive k) in
      match popleft notifs with
      | Raise e => Some (Raise e)
      | Ok (None, rest) => Some (Ok ([], rest))
      | Ok (Some x, rest) =>
          match drain fuel' arrive (S k) rest with
          | Some (Ok (xs, rest')) => Some (Ok (x :: xs, rest'))
          | other => other
          end
      end
  end.

Definition get_notifications (fuel : nat) (arrive : nat -> list Notif)
    (notifs : deque) : option (result (list Notif * deque)) :=
  let notifs := notifs ++ [None] in
  drain fuel arrive 0 notifs.

(** What the other threads put before the calls [k], ..., [k + n - 1]
    of [popleft], oldest first. *)
Definition arrived (arrive : nat -> list Notif) (k n : nat)
  : list Notif :=
  concat (map arrive (seq k n)).

End Notifications.

(** [timedelta] is called with one keyword, the others default to 0. *)
Definition timeframe_to_timedelta (timeframe : TimeFrame) (compression : Z)
  : result timedelta :=
  if decide (timeframe = Days) then timedelta_new 1 0 0 0
  else if decide (timeframe = Weeks) then timedelta_new 0 0 0 1
  else if decide (timeframe = Months) then Raise NotImplementedError
  else if decide (timeframe = Years) then Raise NotImplementedError
  else if decide (timeframe = Minutes) then timedelta_new 0 0 compression 0
  else timedelta_new 0 compression 0 0.

(** [timeframe_to_alor_timeframe]; [str] of an integer is its decimal
    form, with a minus sign when it is negative. *)
Definition timeframe_to_alor_timeframe (timeframe : TimeFrame)
    (compression : Z) : string :=
  if decide (timeframe = Days) then "D"
  else if decide (timeframe = Weeks) then "W"
  else if decide (timeframe = Months) then "M"
  else if decide (timeframe = Years) then "Y"
  else if decide (timeframe = Minutes) then pretty (compression * 60)
  else pretty compression.

End Store.

(** ** [data.py] *)

(** What [_load] returns: [False], [None] or [True]. *)
Inductive load_ret : Set := RFalse | RNone | RTrue.

#[global] Instance load_ret_eq_dec : EqDecision load_ret.
Proof. solve_decision. Defined.

(** The parameters [self.p] the feed reads. *)
Record Params : Set := mk_Params
  { timeframe : TimeFrame;
    compression : Z;
    sessionstart : time;
    sessionend : time;
    four_price_doji : bool;
    live_bars : bool }.

(** The two clocks [get_alor_date_time_now] reads: [provider.get_time()]
    and [datetime.now(tz_msk).replace(tzinfo=None)]. *)
Record Clock : Set := mk_Clock
  { get_time : Z;
    now_msk : datetime }.

Section Feed.

Context {Price : Type} `{EqDecision Price}.

(** A bar as the provider delivers it: a dict with these keys. *)
Record Bar : Type := mk_Bar
  { bar_time : Z;
    bar_open : Price;
    bar_high : Price;
    bar_low : Price;
    bar_close : Price;
    bar_volume : Z }.

#[global] Instance Bar_eq_dec : EqDecision Bar.
Proof. solve_decision. Defined.

(** An entry of [store.new_bars]:
    [dict(provider_name=..., response=dict(guid=..., data=bar))]. *)
Record Response : Type := mk_Response
  { r_guid : string;
    r_data : Bar }.

Record Entry : Type := mk_Entry
  { e_provider_name : string;
    e_response : Response }.

#[global] Instance Response_eq_dec : EqDecision Response.
Proof. solve_decision. Defined.
#[global] Instance Entry_eq_dec : EqDecision Entry.
Proof. solve_decision. Defined.

(** The functions of the provider (the exchange client) the feed calls. *)
Class Provider : Type := mk_Provider
  { utc_timestamp_to_msk_datetime : Z -> result datetime;
    alor_price_to_price : string -> string -> Price -> Price }.

Context {provider : Provider}.

(** The record [lines[0]] of the feed; [l_datetime] is the value handed
    to [date2num]. *)
Record Lines : Type := mk_Lines
  { l_datetime : datetime;
    l_open : Price;
    l_high : Price;
    l_low : Price;
    l_close : Price;
    l_volume : Z;
    l_openinterest : Z }.

(** The attributes of the feed. [put_notification] is a method of the
    framework's feed base class, which is not part of this repository:
    [sent] lists the statuses the feed has handed to it, in call order,
    and what the framework does with them is left open. [lines] is the
    record [lines[0]] that a poll fills in. *)
Record Data : Type := mk_Data
  { p : Params;
    provider_name : string;
    exchange : string;
    symbol : string;
    history_bars : list Bar;
    guid : option string;
    dt_last_open : datetime;
    last_bar_received : bool;
    live_mode : bool;
    lines : option Lines;
    sent : list Status }.

Definition set_history_bars (v : list Bar) (d : Data) : Data :=
  mk_Data (p d) (provider_name d) (exchange d) (symbol d) v (guid d)
          (dt_last_open d) (last_bar_received d) (live_mode d) (lines d)
          (sent d).
Definition set_guid (v : option string) (d : Data) : Data :=
  mk_Data (p d) (provider_name d) (exchange d) (symbol d) (history_bars d) v
          (dt_last_open d) (last_bar_received d) (live_mode d) (lines d)
          (sent d).
Definition set_dt_last_open (v : datetime) (d : Data) : Data :=
  mk_Data (p d) (provider_name d) (exchange d) (symbol d) (history_bars d)
          (guid d) v (last_bar_received d) (live_mode d) (lines d) (sent d).
Definition set_last_bar_received (v : bool) (d : Data) : Data :=
  mk_Data (p d) (provider_name d) (exchange d) (symbol d) (history_bars d)
          (guid d) (dt_last_open d) v (live_mode d) (lines d) (sent d).
Definition set_live_mode (v : bool) (d : Data) : Data :=
  mk_Data (p d) (provider_name d) (exchange d) (symbol d) (history_bars d)
          (guid d) (dt_last_open d) (last_bar_received d) v (lines d)
          (sent d).
Definition set_lines (v : option Lines) (d : Data) : Data :=
  mk_Data (p d) (provider_name d) (exchange d) (symbol d) (history_bars d)
          (guid d) (dt_last_open d) (last_bar_received d) (live_mode d) v
          (sent d).

Definition put_notification (s : Status) (d : Data) : Data :=
  mk_Data (p d) (provider_name d) (exchange d) (symbol d) (history_bars d)
          (guid d) (dt_last_open d) (last_bar_received d) (live_mode d)
          (lines d) (sent d ++ [s]).

(** [__init__]: the attributes before [start]. *)
Definition init (params : Params) (name exch sym : string) : Data :=
  mk_Data params name exch sym [] None datetime_min false false None [].

(** [get_bar_open_date_time] *)
Definition get_bar_open_date_time (self : Data) (bar : Bar)
  : result datetime :=
  if bool_decide (timeframe (p self) = Minutes
                  \/ timeframe (p self) = Seconds)
  then utc_timestamp_to_msk_datetime (bar_time bar)
  else utcfromtimestamp (bar_time bar).

(** [get_bar_close_date_time] *)
Definition get_bar_close_date_time (self : Data) (dt_open : datetime)
    (period : Z) : result datetime :=
  if decide (timeframe (p self) = Days) then
    td ← timedelta_new period 0 0 0; datetime_add dt_open td
  else if decide (timeframe (p self) = Weeks) then
    td ← timedelta_new 0 0 0 period; datetime_add dt_open td
  else if decide (timeframe (p self) = Months) then
    let y := year dt_open + (month dt_open + period - 1) / 12 in
    let m := (month dt_open + period - 1) mod 12 + 1 in
    datetime_new y m 1 0 0 0 0
  else if decide (timeframe (p self) = Years) then
    replace_year dt_open (year dt_open + period)
  else if decide (timeframe (p self) = Minutes) then
    td ← timedelta_new 0 0 (compression (p self) * period) 0;
    datetime_add dt_open td
  else
    td ← timedelta_new 0 (compression (p self) * period) 0 0;
    datetime_add dt_open td.

(** [get_alor_date_time_now] *)
Definition get_alor_date_time_now (clk : Clock) (self : Data)
  : result datetime :=
  if last_bar_received self
  then utc_timestamp_to_msk_datetime (get_time clk)
  else Ok (now_msk clk).

(** [is_bar_valid] *)
Definition is_bar_valid (clk : Clock) (self : Data) (bar : Bar)
  : result bool :=
  dt_open ← get_bar_open_date_time self bar;
  if bool_decide (sessionstart (p self) <> time_min)
     && time_ltb (time_of dt_open) (sessionstart (p self))
  then Ok false
  else
    dt_close ← get_bar_close_date_time self dt_open 1;
    if bool_decide (sessionend (p self) <> mk_time 23 59 59 999990)
       && time_ltb (sessionend (p self)) (time_of dt_close)
    then Ok false
    else
      let high := alor_price_to_price (exchange self) (symbol self)
                                      (bar_high bar) in
      let low := alor_price_to_price (exchange self) (symbol self)
                                     (bar_low bar) in
      if negb (four_price_doji (p self)) && bool_decide (high = low)
      then Ok false
      else
        time_market_now ← get_alor_date_time_now clk self;
        if datetime_ltb time_market_now dt_close
           && time_ltb (time_of time_market_now) (sessionend (p self))
        then Ok false
        else Ok true.

(** The entries of [store.new_bars] that [_load] selects: those of the
    feed's provider that carry the feed's [guid]. *)
Definition matching (self : Data) (new_bars : list Entry) : list Entry :=
  filter (fun b => e_provider_name b = provider_name self
                   /\ Some (r_guid (e_response b)) = guid self) new_bars.

(** The end of [_load]: the bar is written to [lines[0]]. *)
Definition write_lines (bar : Bar) (self : Data) : result load_ret * Data :=
  match get_bar_open_date_time self bar with
  | Raise e => (Raise e, self)
  | Ok dt =>
      let conv := alor_price_to_price (exchange self) (symbol self) in
      (Ok RTrue,
       set_lines (Some (mk_Lines dt (conv (bar_open bar)) (conv (bar_high bar))
                                 (conv (bar_low bar)) (conv (bar_close bar))
                                 (bar_volume bar) 0)) self)
  end.

(** [_load]: one poll of the feed. It reads and changes the feed and the
    store's [new_bars]; an exception leaves both as they were when it was
    raised. *)
Definition _load (clk : Clock) (self : Data) (new_bars : list Entry)
  : result load_ret * Data * list Entry :=
  if negb (live_bars (p self)) then
    match history_bars self with
    | [] => (Ok RFalse, put_notification DISCONNECTED self, new_bars)
    | bar :: _ =>
        match list_remove bar (history_bars self) with
        | Raise e => (Raise e, self, new_bars)
        | Ok rest => (write_lines bar (set_history_bars rest self), new_bars)
        end
    end
  else if bool_decide (length new_bars = 0%nat) then (Ok RNone, self, new_bars)
  else
    match matching self new_bars with
    | [] => (Ok RNone, self, new_bars)
    | new_bar :: others =>
        let self :=
          set_last_bar_received
            (bool_decide (length (new_bar :: others) = 1%nat)) self in
        match list_remove new_bar new_bars with
        | Raise e => (Raise e, self, new_bars)
        | Ok new_bars =>
            let bar := r_data (e_response new_bar) in
            match is_bar_valid clk self bar with
            | Raise e => (Raise e, self, new_bars)
            | Ok false => (Ok RNone, self, new_bars)
            | Ok true =>
                match get_bar_open_date_time self bar with
                | Raise e => (Raise e, self, new_bars)
                | Ok dt_open =>
                    if datetime_leb dt_open (dt_last_open self)
                    then (Ok RNone, self, new_bars)
                    else
                      let self := set_dt_last_open dt_open self in
                      let self :=
                        if last_bar_received self && negb (live_mode self)
                        then set_live_mode true (put_notification LIVE self)
                        else if live_mode self
                                && negb (last_bar_received self)
                        then set_live_mode false
                                           (put_notification DELAYED self)
                        else self in
                      (write_lines bar self, new_bars)
                end
            end
        end
    end.

(** The loop of [start] over the fetched history; [clocks i] is what the
    clocks show when bar [i] is checked. *)
Fixpoint start_loop (clocks : nat -> Clock) (i : nat) (bars : list Bar)
    (self : Data) : result unit * Data :=
  match bars with
  | [] => (Ok tt, self)
  | bar :: rest =>
      match is_bar_valid (clocks i) self bar with
      | Raise e => (Raise e, self)
      | Ok true =>
          start_loop clocks (S i) rest
                     (set_history_bars (history_bars self ++ [bar]) self)
      | Ok false => start_loop clocks (S i) rest self
      end
  end.

(** [start]. [fetched] is [get_history(...)["history"]]; [new_guid] is the
    identifier of the schedule or of the subscription. The thread of the
    schedule is not part of the model. *)
Definition start (clocks : nat -> Clock) (fetched : list Bar)
    (new_guid : string) (self : Data) : result unit * Data :=
  let self := put_notification DELAYED self in
  if negb (live_bars (p self)) then
    match start_loop clocks 0 fetched self with
    | (Raise e, self) => (Raise e, self)
    | (Ok _, self) =>
        if bool_decide (0 < length (history_bars self))%nat
        then (Ok tt, put_notification CONNECTED self)
        else (Ok tt, self)
    end
  else
    let self := set_guid (Some new_guid) self in
    (Ok tt, put_notification CONNECTED self).

(** [stop], as far as the feed's attributes go. *)
Definition stop (self : Data) : Data :=
  match guid self with
  | Some _ => put_notification DISCONNECTED self
  | None => self
  end.

(** *** The host's pull loop *)

(** One turn of the loop: what the clocks show during the poll, and what
    the other users of the store (the provider's callback, the schedule
    thread, other feeds) did to [new_bars] since the previous poll. *)
Record Tick : Type := mk_Tick
  { tick_clock : Clock;
    tick_new_bars : list Entry -> list Entry }.

(** The polls of a run: what each returned and the feed after it. *)
Fixpoint run (ticks : list Tick) (self : Data) (new_bars : list Entry)
  : list (result load_ret * Data) :=
  match ticks with
  | [] => []
  | t :: ticks' =>
      let r := _load (tick_clock t) self (tick_new_bars t new_bars) in
      (r.1.1, r.1.2) :: run ticks' r.1.2 r.2
  end.

(** The feed after the last poll of a run. *)
Definition final (self : Data) (trace : list (result load_ret * Data))
  : Data :=
  match last trace with
  | Some step => step.2
  | None => self
  end.

(** The bar a poll emitted: [lines[0]] when it returned [True]. *)
Definition emitted (step : result load_ret * Data) : option Lines :=
  match step.1 with
  | Ok RTrue => lines step.2
  | _ => None
  end.

Definition emitted_lines (trace : list (result load_ret * Data))
  : list Lines :=
  omap emitted trace.

(** The record [write_lines] stores for a bar that opens at [dt]. *)
Definition line_of (self : Data) (bar : Bar) (dt : datetime) : Lines :=
  let conv := alor_price_to_price (exchange self) (symbol self) in
  mk_Lines dt (conv (bar_open bar)) (conv (bar_high bar))
           (conv (bar_low bar)) (conv (bar_close bar)) (bar_volume bar) 0.

End Feed.

Arguments Bar : clear implicits.
Arguments Response : clear implicits.
Arguments Entry : clear implicits.
Arguments Lines : clear implicits.
Arguments Data : clear implicits.
Arguments Provider : clear implicits.
Arguments Tick : clear implicits.

(** ** The rest of [data.py] and of [store.py] *)

Section Producers.

Context {Price : Type} `{EqDecision Price} {provider : Provider Price}.

(** [islive] *)
Definition islive (self : Data Price) : bool := live_bars (p self).

(** The handler [Store.start] gives to the provider named [n]:
    [lambda response, n=name: self.new_bars.append(
       dict(provider_name=n, response=response))]. *)
Definition OnNewBar (n : string) (response : Response Price)
    (new_bars : list (Entry Price)) : list (Entry Price) :=
  new_bars ++ [mk_Entry n response].

(** One turn of the loop of [stream_bars]: whether the wait ended with the
    exit event set, and what [get_history] answered ([None] for an answer
    that is empty or [None], else its list ["history"]). The times the
    schedule computes only set the length of the wait and the start of the
    request: they are part of what the turn is given. *)
Record Round : Type := mk_Round
  { exit_event_set : bool;
    history : option (list (Bar Price)) }.

(** The loop of [stream_bars] over the turns given; [g] is [self.guid],
    which [start] sets before it starts the thread. The result says
    whether the loop has returned, and what [new_bars] holds. *)
Fixpoint stream_rounds (g : string) (rounds : list Round) (self : Data Price)
    (new_bars : list (Entry Price)) : bool * list (Entry Price) :=
  match rounds with
  | [] => (false, new_bars)
  | round :: rounds' =>
      if exit_event_set round then (true, new_bars)
      else
        match history round with
        | None => stream_rounds g rounds' self new_bars
        | Some [] => stream_rounds g rounds' self new_bars
        | Some (bar :: _) =>
            stream_rounds g rounds' self
              (new_bars
                 ++ [mk_Entry (provider_name self) (mk_Response g bar)])
        end
  end.

(** [stream_bars]: the length of a bar is computed first, then the loop
    runs. *)
Definition stream_bars (g : string) (rounds : list Round) (self : Data Price)
    (new_bars : list (Entry Price)) : result (bool * list (Entry Price)) :=
  time_frame ← Store.timeframe_to_timedelta (timeframe (p self))
                                            (compression (p self));
  Ok (stream_rounds g rounds self new_bars).

(** What [store.new_bars] holds after the polls of a run. *)
Fixpoint run_new_bars (ticks : list (Tick Price)) (self : Data Price)
    (new_bars : list (Entry Price)) : list (Entry Price) :=
  match ticks with
  | [] => new_bars
  | t :: ticks' =>
      let r := _load (tick_clock t) self (tick_new_bars t new_bars) in
      run_new_bars ticks' r.1.2 r.2
  end.

End Producers.

Arguments Round : clear implicits.

(** *** Making the store *)

Module Singleton.

(** The exceptions of the constructors. *)
Inductive error : Set :=
| KeyError (key : string)
| IndexError
| TypeError.

(** A dict that keeps its keys in the order they were first set. *)
Definition dict (V : Type) : Type := list (string * V).

Fixpoint dict_set {V : Type} (k : string) (v : V) (d : dict V) : dict V :=
  match d with
  | [] => [(k, v)]
  | (k', v') :: d' =>
      if decide (k' = k) then (k, v) :: d' else (k', v') :: dict_set k v d'
  end.

Fixpoint dict_get {V : Type} (k : string) (d : dict V) : option V :=
  match d with
  | [] => None
  | (k', v) :: d' => if decide (k' = k) then Some v else dict_get k d'
  end.

(** One dict of the list [providers]: the keys it may hold. *)
Record ProviderConfig : Set := mk_ProviderConfig
  { cfg_provider_name : option string;
    cfg_demo : option bool;
    cfg_username : option string;
    cfg_refresh_token : option string }.

(** The client [Alor(username, refresh_token, demo)] of the provider
    library: the model keeps what it was made from. *)
Record Alor : Set := mk_Alor
  { alor_username : string;
    alor_refresh_token : string;
    alor_demo : bool }.

(** The loop of [Store.__init__] over the provider dicts. *)
Fixpoint add_providers (configs : list ProviderConfig) (providers : dict Alor)
  : error + dict Alor :=
  match configs with
  | [] => inr providers
  | cfg :: rest =>
      let demo := default false (cfg_demo cfg) in
      let provider_name :=
        default "default"%string (cfg_provider_name cfg) in
      match cfg_username cfg with
      | None => inl (KeyError "username")
      | Some username =>
          match cfg_refresh_token cfg with
          | None => inl (KeyError "refresh_token")
          | Some refresh_token =>
              add_providers
                rest
                (dict_set provider_name
                          (mk_Alor username refresh_token demo) providers)
          end
      end
  end.

(** The attributes of the store that [__init__] sets from the providers;
    [notifs] and [new_bars] start empty. *)
Record Store : Type := mk_Store
  { providers : dict Alor;
    provider : Alor }.

(** [Store.__init__]; [given] is the parameter [providers], [None] when it
    was not given. *)
Definition init (given : option (list ProviderConfig)) : error + Store :=
  match given with
  | None => inl TypeError
  | Some configs =>
      match add_providers configs [] with
      | inl e => inl e
      | inr providers =>
          match providers with
          | [] => inl IndexError
          | (_, first) :: _ => inr (mk_Store providers first)
          end
      end
  end.

(** [MetaSingleton.__call__]: the class attribute [_singleton] before and
    after, and what the call gives. *)
Definition call {Args Inst : Type} (new : Args -> error + Inst) (args : Args)
    (_singleton : option Inst) : (error + Inst) * option Inst :=
  match _singleton with
  | None =>
      match new args with
      | inl e => (inl e, None)
      | inr instance => (inr instance, Some instance)
      end
  | Some instance => (inr instance, Some instance)
  end.

(** A run of calls of the class, one after the other. *)
Fixpoint calls {Args Inst : Type} (new : Args -> error + Inst)
    (argss : list Args) (_singleton : option Inst)
  : list (error + Inst) * option Inst :=
  match argss with
  | [] => ([], _singleton)
  | args :: rest =>
      let r := call new args _singleton in
      let rs := calls new rest r.2 in
      (r.1 :: rs.1, rs.2)
  end.

(** The provider [Data.__init__] picks: the one named by the parameter
    [provider_name] when that is set and not empty, else the first of the
    store. *)
Definition select_provider (p_provider_name : option string) (store : Store)
  : error + (string * Alor) :=
  let provider_name :=
    match p_provider_name with
    | Some name => if decide (name = ""%string) then None else Some name
    | None => None
    end in
  let provider_name :=
    match provider_name with
    | Some name => inr name
    | None =>
        match providers store with
        | [] => inl IndexError
        | (name, _) :: _ => inr name
        end
    end in
  match provider_name with
  | inl e => inl e
  | inr name =>
      match dict_get name (providers store) with
      | None => inl (KeyError name)
      | Some alor => inr (name, alor)
      end
  end.

(** The name a provider dict is stored under, and the client it makes
    when it holds both credentials. *)
Definition config_name (cfg : ProviderConfig) : string :=
  default "default"%string (cfg_provider_name cfg).

Definition config_client (cfg : ProviderConfig) : option Alor :=
  match cfg_username cfg, cfg_refresh_token cfg with
  | Some username, Some refresh_token =>
      Some (mk_Alor username refresh_token (default false (cfg_demo cfg)))
  | _, _ => None
  end.

(** The provider dict that was given last under a name. *)
Definition last_named (name : string) (configs : list ProviderConfig)
  : option ProviderConfig :=
  last (filter (fun cfg => config_name cfg = name) configs).

End Singleton.

(** ** Concrete feeds, used to evaluate the model *)

Module Example.

(** A provider on Moscow time (UTC+3) that leaves prices as they are. *)
#[global] Instance msk : Provider Z :=
  {| utc_timestamp_to_msk_datetime ts := utcfromtimestamp (ts + 10800);
     alor_price_to_price _ _ price := price |}.

Definition no_session_end : time := mk_time 23 59 59 999990.

Definition params (tf : TimeFrame) (doji live : bool) : Params :=
  mk_Params tf 1 time_min no_session_end doji live.

(** A subscribed live feed on minute bars with handle ["H"]. *)
Definition live_feed : Data Z :=
  set_guid (Some "H"%string)
           (init (params Minutes false true) "alor" "MOEX" "SBER").

(** A historical feed on day bars, before [start]. *)
Definition history_feed : Data Z :=
  init (params Days false false) "alor" "MOEX" "SBER".

(** A historical feed on month bars. *)
Definition month_feed : Data Z :=
  init (params Months false false) "alor" "MOEX" "SBER".

(** A historical feed on day bars whose session starts at 10:00. *)
Definition session_feed (doji : bool) : Data Z :=
  init (mk_Params Days 1 (mk_time 10 0 0 0) no_session_end doji false)
       "alor" "MOEX" "SBER".

(** 2024-01-31 00:00:00 UTC and the minutes after it. *)
Definition t5 : Z := 1706659200.
Definition t6 : Z := 1706659260.

Definition bar_at (ts : Z) : Bar Z := mk_Bar ts 100 110 90 105 1000.
Definition doji_at (ts : Z) : Bar Z := mk_Bar ts 100 100 100 100 0.

Definition entry (name handle : string) (bar : Bar Z) : Entry Z :=
  mk_Entry name (mk_Response handle bar).

(** A store with an entry of another subscription and two entries of
    the live feed's, for the bars at [t5] and [t6]. *)
Definition two_pending : list (Entry Z) :=
  [entry "alor" "X" (bar_at t5);
   entry "alor" "H" (bar_at t5);
   entry "alor" "H" (bar_at t6)].

(** A store with one entry of the live feed's, a four-price doji. *)
Definition doji_pending : list (Entry Z) :=
  [entry "alor" "H" (doji_at t5)].


(** The clocks at 2024-02-01 12:00:00 Moscow time. *)
Definition noon : Clock :=
  mk_Clock 1706778000 (mk_datetime 2024 2 1 12 0 0 0).

Definition tick : Tick Z := mk_Tick noon (fun new_bars => new_bars).


(** The historical feed after [start] has fetched a doji only. *)
Definition started_on_doji : Data Z :=
  (start (fun _ => noon) [doji_at t5] "" history_feed).2.


(** A historical feed on year bars. *)
Definition year_feed : Data Z :=
  init (params Years false false) "alor" "MOEX" "SBER".

(** A historical feed on day bars with the default session bounds. *)
Definition default_feed (doji : bool) : Data Z :=
  init (params Days doji false) "alor" "MOEX" "SBER".

End Example.

(** * Properties *)

(** ** The constructor of [datetime] *)

Lemma days_in_month_bound (y m : Z) : 28 <= days_in_month y m <= 31.
Proof. unfold days_in_month, days_in_month_table. repeat case_match; lia. Qed.

(** Fields in range make a [datetime]. *)
Lemma datetime_new_ok (y m d hh mm ss us : Z) :
  1 <= y <= 9999 -> 1 <= m <= 12 -> 1 <= d <= days_in_month y m ->
  0 <= hh <= 23 -> 0 <= mm <= 59 -> 0 <= ss <= 59 -> 0 <= us <= 999999 ->
  datetime_new y m d hh mm ss us = Ok (mk_datetime y m d hh mm ss us).
Proof.
  intros Hy Hm Hd Hhh Hmm Hss Hus.
  pose proof (days_in_month_bound y m).
  unfold datetime_new, fits_c_int, MINYEAR, MAXYEAR. cbn [forallb].
  by rewrite !(proj2 (Z.leb_le _ _)) by lia.
Qed.

(** A [datetime] that was made has its fields in range. *)
Lemma datetime_new_inv (y m d hh mm ss us : Z) dt :
  datetime_new y m d hh mm ss us = Ok dt ->
  dt = mk_datetime y m d hh mm ss us
  /\ 1 <= y <= 9999 /\ 1 <= m <= 12 /\ 1 <= d <= days_in_month y m
  /\ 0 <= hh <= 23 /\ 0 <= mm <= 59 /\ 0 <= ss <= 59 /\ 0 <= us <= 999999.
Proof.
  unfold datetime_new, MINYEAR, MAXYEAR.
  case_match; [discriminate|]. case_match eqn:Hfields; [|discriminate].
  intros [= <-]. rewrite !andb_true_iff, !Z.leb_le in Hfields. intuition.
Qed.

(** ** The duration of a time frame *)

(** C8. [timeframe_to_timedelta] raises [NotImplementedError] for the
    month and the year time frames, whatever the compression, and never
    returns a duration for them. For days and weeks it returns one day and
    seven days; for minutes and seconds it returns the duration of
    [compression] minutes or seconds, as long as that duration is one
    [timedelta] can hold (at most 999999999 days in magnitude). *)
Theorem timeframe_to_timedelta_units (compression : Z) :
  Store.timeframe_to_timedelta Months compression = Raise NotImplementedError
  /\ Store.timeframe_to_timedelta Years compression = Raise NotImplementedError
  /\ Store.timeframe_to_timedelta Days compression = Ok (mk_timedelta 1 0 0)
  /\ Store.timeframe_to_timedelta Weeks compression = Ok (mk_timedelta 7 0 0)
  /\ (Z.abs (60 * compression / 86400) <= 999999999 ->
      exists td, Store.timeframe_to_timedelta Minutes compression = Ok td
                 /\ total_microseconds td = 60 * compression * 1000000)
  /\ (Z.abs (compression / 86400) <= 999999999 ->
      exists td, Store.timeframe_to_timedelta Seconds compression = Ok td
                 /\ total_microseconds td = compression * 1000000)
  /\ (forall tf td, Store.timeframe_to_timedelta tf compression = Ok td ->
                    tf <> Months /\ tf <> Years).
Proof.
  assert (Hnew : forall secs,
             Z.abs (secs / 86400) <= 999999999 ->
             exists td, Ok (mk_timedelta (secs / 86400) (secs mod 86400) 0)
                        = Ok td
                        /\ total_microseconds td = secs * 1000000).
  { intros secs _. eexists. split; [reflexivity|].
    unfold total_microseconds. cbn [td_days td_seconds td_microseconds].
    pose proof (Z.div_mod secs 86400). lia. }
  repeat split; try reflexivity.
  - intros Hrange. unfold Store.timeframe_to_timedelta, timedelta_new.
    simpl.
    replace (0 + 60 * compression) with (60 * compression) by lia.
    replace (0 + 7 * 0 + 60 * compression / 86400)
      with (60 * compression / 86400) by lia.
    pose proof Hrange as Hleb. apply Z.leb_le in Hleb. rewrite Hleb.
    destruct (Hnew (60 * compression) Hrange) as (td & Htd & Htotal).
    exists td. split; [exact Htd | lia].
  - intros Hrange. unfold Store.timeframe_to_timedelta, timedelta_new.
    simpl.
    replace (compression + 60 * 0) with compression by lia.
    replace (0 + 7 * 0 + compression / 86400)
      with (compression / 86400) by lia.
    pose proof Hrange as Hleb. apply Z.leb_le in Hleb. rewrite Hleb.
    exact (Hnew compression Hrange).
  - intros ->. discriminate.
  - intros ->. discriminate.
Qed.

Lemma timeframe_to_timedelta_units_witness :
  exists td, Store.timeframe_to_timedelta Minutes 5 = Ok td
             /\ total_microseconds td = 60 * 5 * 1000000.
Proof.
  destruct (timeframe_to_timedelta_units 5) as (_ & _ & _ & _ & Hmin & _).
  apply Hmin. vm_compute. discriminate.
Defined.

(** ** The close time of a bar *)

Section CloseTime.

Context {Price : Type} `{EqDecision Price} {provider : Provider Price}.

(** C6. On the month time frame the close time is
    [datetime(year + (month + period - 1) // 12,
              (month + period - 1) % 12 + 1, 1)]:
    midnight of day 1 of the month that lies [period] months after the
    month of the open time, the year carrying over; it exists whenever
    that year is one [datetime] can hold. An open time of 2024-01-31
    closes at 2024-02-01 and one of 2024-12-15 at 2025-01-01. *)
Theorem month_close_date_time (self : Data Price) :
  timeframe (p self) = Months ->
  (forall dt_open period,
      get_bar_close_date_time self dt_open period
      = datetime_new (year dt_open + (month dt_open + period - 1) / 12)
                     ((month dt_open + period - 1) mod 12 + 1) 1 0 0 0 0)
  /\ (forall dt_open period dt_close,
         get_bar_close_date_time self dt_open period = Ok dt_close ->
         day dt_close = 1
         /\ time_of dt_close = time_min
         /\ 1 <= month dt_close <= 12
         /\ 12 * year dt_close + month dt_close
            = 12 * year dt_open + month dt_open + period)
  /\ (forall dt_open period,
         1 <= year dt_open + (month dt_open + period - 1) / 12 <= 9999 ->
         exists dt_close,
           get_bar_close_date_time self dt_open period = Ok dt_close)
  /\ get_bar_close_date_time self (mk_datetime 2024 1 31 0 0 0 0) 1
     = Ok (mk_datetime 2024 2 1 0 0 0 0)
  /\ get_bar_close_date_time self (mk_datetime 2024 12 15 0 0 0 0) 1
     = Ok (mk_datetime 2025 1 1 0 0 0 0).
Proof.
  intros Htf.
  assert (Hdef : forall dt_open period,
             get_bar_close_date_time self dt_open period
             = datetime_new (year dt_open + (month dt_open + period - 1) / 12)
                            ((month dt_open + period - 1) mod 12 + 1)
                            1 0 0 0 0).
  { intros dt_open period. unfold get_bar_close_date_time.
    rewrite Htf. reflexivity. }
  split; [exact Hdef|]. split; [|split; [|split]].
  - intros dt_open period dt_close. rewrite Hdef.
    intros (-> & _)%datetime_new_inv. cbn.
    pose proof (Z.mod_pos_bound (month dt_open + period - 1) 12 eq_refl).
    pose proof (Z.div_mod (month dt_open + period - 1) 12).
    repeat split; lia.
  - intros dt_open period Hyear. rewrite Hdef.
    pose proof (Z.mod_pos_bound (month dt_open + period - 1) 12 eq_refl)
      as Hm.
    set (y := year dt_open + (month dt_open + period - 1) / 12) in *.
    set (m := (month dt_open + period - 1) mod 12 + 1) in *.
    pose proof (days_in_month_bound y m).
    eexists. apply datetime_new_ok; lia.
  - rewrite Hdef. reflexivity.
  - rewrite Hdef. reflexivity.
Qed.

End CloseTime.

Lemma month_close_date_time_witness :
  get_bar_close_date_time Example.month_feed (mk_datetime 2024 12 15 0 0 0 0) 1
  = Ok (mk_datetime 2025 1 1 0 0 0 0).
Proof.
  apply (month_close_date_time Example.month_feed). reflexivity.
Defined.

(** ** The store's notification queue *)

Section Drain.

Context {Notif : Type}.
Implicit Types (queued pending : list Notif) (arrive : nat -> list Notif).

(** Putting notifications one after the other queues them in that order,
    and never queues the mark. *)
Lemma put_notifications_queue queued :
  foldl (fun notifs n => Store.put_notification n notifs) [] queued
  = map Some queued.
Proof.
  rewrite <- (app_nil_l (map Some queued)).
  generalize (@nil (option Notif)).
  induction queued as [|n queued IH]; intros notifs; cbn.
  - by rewrite app_nil_r.
  - rewrite IH. unfold Store.put_notification.
    by rewrite <- app_assoc.
Qed.

Lemma drain_behind_mark arrive queued :
  forall pending k fuel,
    (length queued < fuel)%nat ->
    Store.drain fuel arrive k (map Some queued ++ None :: map Some pending)
    = Some (Ok (queued,
                map Some (pending ++ Store.arrived arrive k (S (length queued))))).
Proof.
  induction queued as [|n queued IH]; intros pending k fuel Hfuel;
    (destruct fuel as [|fuel]; [cbn in Hfuel; lia|]).
  - cbn. unfold Store.arrived. cbn. by rewrite app_nil_r, map_app.
  - cbn [Store.drain map app Store.popleft].
    rewrite <- app_assoc. cbn [app]. rewrite <- map_app.
    rewrite IH by (cbn in Hfuel; lia).
    unfold Store.arrived. cbn [length seq map concat].
    by rewrite <- app_assoc.
Qed.

(** C5. One call of [get_notifications] returns exactly the notifications
    that were queued when it was called, oldest first, and takes them off
    the queue; what other threads put while it runs is not returned: it
    stays queued, in order, for the next call. *)
Theorem get_notifications_drains queued arrive (fuel : nat) :
  (length queued < fuel)%nat ->
  Store.get_notifications fuel arrive (map Some queued)
  = Some (Ok (queued, map Some (Store.arrived arrive 0 (S (length queued))))).
Proof.
  intros Hfuel. unfold Store.get_notifications.
  change [None] with (None :: map Some (@nil Notif)).
  by rewrite drain_behind_mark.
Qed.

End Drain.

Lemma get_notifications_drains_witness :
  Store.get_notifications 5 (fun k => [DISCONNECTED]) (map Some [DELAYED; LIVE])
  = Some (Ok ([DELAYED; LIVE],
              map Some [DISCONNECTED; DISCONNECTED; DISCONNECTED])).
Proof.
  apply (get_notifications_drains [DELAYED; LIVE] (fun k => [DISCONNECTED]) 5).
  cbn. lia.
Defined.

(** ** The session filter *)

Section SessionFilter.

Context {Price : Type} `{EqDecision Price} {provider : Provider Price}.
Implicit Types (self : Data Price) (bar : Bar Price) (clk : Clock).

(** C7, as the code has it. Take a bar whose high equals its low. When
    four-price dojis are not let through, the filter never accepts the
    bar, and rejects it whenever its open and close times exist. When
    they are let through, the bar is accepted exactly when the other
    three rules accept it: the open time is not before a set session
    start, the close time is not after a set session end, and the bar
    is not still forming while the session is open. *)
Theorem four_price_doji_rule clk self bar :
  bar_high bar = bar_low bar ->
  (four_price_doji (p self) = false ->
   is_bar_valid clk self bar <> Ok true
   /\ (forall dt_open dt_close,
          get_bar_open_date_time self bar = Ok dt_open ->
          get_bar_close_date_time self dt_open 1 = Ok dt_close ->
          is_bar_valid clk self bar = Ok false))
  /\ (four_price_doji (p self) = true ->
      (is_bar_valid clk self bar = Ok true <->
       exists dt_open dt_close now,
         get_bar_open_date_time self bar = Ok dt_open
         /\ get_bar_close_date_time self dt_open 1 = Ok dt_close
         /\ get_alor_date_time_now clk self = Ok now
         /\ bool_decide (sessionstart (p self) <> time_min)
            && time_ltb (time_of dt_open) (sessionstart (p self)) = false
         /\ bool_decide (sessionend (p self) <> mk_time 23 59 59 999990)
            && time_ltb (sessionend (p self)) (time_of dt_close) = false
         /\ datetime_ltb now dt_close
            && time_ltb (time_of now) (sessionend (p self)) = false)).
Proof.
  intros Hdoji.
  assert (Hsame : bool_decide
                    (alor_price_to_price (exchange self) (symbol self)
                                         (bar_low bar)
                     = alor_price_to_price (exchange self) (symbol self)
                                           (bar_low bar)) = true)
    by (by apply bool_decide_eq_true_2).
  split.
  - intros Hflag. unfold is_bar_valid. rewrite Hflag, Hdoji, Hsame. split.
    + destruct (get_bar_open_date_time self bar) as [dt_open|];
        cbn; [|discriminate].
      case_match; [discriminate|].
      destruct (get_bar_close_date_time self dt_open 1); cbn;
        [|discriminate].
      case_match; discriminate.
    + intros dt_open dt_close -> Hclose. cbn. rewrite Hclose. cbn.
      by repeat case_match.
  - intros Hflag. unfold is_bar_valid. rewrite Hflag. split.
    + destruct (get_bar_open_date_time self bar) as [dt_open|];
        cbn; [|discriminate].
      case_match eqn:Hstart; [discriminate|].
      destruct (get_bar_close_date_time self dt_open 1) as [dt_close|]
        eqn:Hclose; cbn; [|discriminate].
      case_match eqn:Hend; [discriminate|].
      destruct (get_alor_date_time_now clk self) as [now|];
        cbn; [|discriminate].
      case_match eqn:Hforming; [discriminate|].
      intros _. by exists dt_open, dt_close, now.
    + intros (dt_open & dt_close & now & -> & Hclose & -> & Hs & He & Hf).
      cbn. rewrite Hs, Hclose. cbn. by rewrite He, Hf.
Qed.

End SessionFilter.

(** With dojis let through, a doji that opens before the session start is
    rejected all the same. *)
Lemma four_price_doji_rejected_when_allowed :
  four_price_doji (p (Example.session_feed true)) = true
  /\ bar_high (Example.doji_at Example.t5) = bar_low (Example.doji_at Example.t5)
  /\ is_bar_valid Example.noon (Example.session_feed true)
                  (Example.doji_at Example.t5) = Ok false
  /\ is_bar_valid Example.noon (Example.session_feed true)
                  (Example.doji_at Example.t5) <> Ok true.
Proof. by vm_compute. Qed.

(** On a feed with the default session bounds the doji rule decides: the
    doji at [t5] is rejected when dojis are not let through and accepted
    when they are, the clocks being the same; a bar at [t5] that is not a
    doji is accepted either way. *)
Lemma four_price_doji_rule_witness :
  is_bar_valid Example.noon (Example.default_feed false)
               (Example.doji_at Example.t5) = Ok false
  /\ is_bar_valid Example.noon (Example.default_feed true)
                  (Example.doji_at Example.t5) = Ok true
  /\ is_bar_valid Example.noon (Example.default_feed false)
                  (Example.bar_at Example.t5) = Ok true.
Proof.
  split; [|split; [|reflexivity]].
  - destruct (four_price_doji_rule Example.noon (Example.default_feed false)
                                   (Example.doji_at Example.t5) eq_refl)
      as [Hoff _].
    destruct (Hoff eq_refl) as [_ Hreject].
    apply (Hreject (mk_datetime 2024 1 31 0 0 0 0)
                   (mk_datetime 2024 2 1 0 0 0 0)); reflexivity.
  - destruct (four_price_doji_rule Example.noon (Example.default_feed true)
                                   (Example.doji_at Example.t5) eq_refl)
      as [_ Hon].
    apply (Hon eq_refl).
    exists (mk_datetime 2024 1 31 0 0 0 0), (mk_datetime 2024 2 1 0 0 0 0),
      (mk_datetime 2024 2 1 12 0 0 0).
    split_and!; reflexivity.
Defined.

(** ** One poll of the feed *)

Section ListRemove.

Context {A : Type} `{EqDecision A}.

Lemma list_remove_head (x : A) (l : list A) : list_remove x (x :: l) = Ok l.
Proof. cbn. by rewrite decide_True. Qed.

(** Removing the first element that passes a filter: the elements
    before it do not pass, so it is the one [list_remove] finds. *)
Lemma list_remove_first_filtered (P : A -> Prop) `{forall x, Decision (P x)}
    (l : list A) (x : A) (xs : list A) :
  filter P l = x :: xs ->
  exists l1 l2,
    l = l1 ++ x :: l2
    /\ filter P l1 = []
    /\ filter P l2 = xs
    /\ list_remove x l = Ok (l1 ++ l2).
Proof.
  induction l as [|a l IH]; [discriminate|].
  rewrite filter_cons. destruct (decide (P a)) as [Ha|Ha].
  - intros [= -> <-]. exists [], l. by rewrite list_remove_head.
  - intros Hfilter. destruct (IH Hfilter) as (l1 & l2 & -> & H1 & H2 & Hrm).
    exists (a :: l1), l2. repeat split; [|done|].
    + by rewrite filter_cons, decide_False.
    + assert (P x) as Hx.
      { assert (x ∈ filter P (l1 ++ x :: l2)) as Hin
            by (rewrite Hfilter; left).
        by apply list_elem_of_filter in Hin as [? _]. }
      cbn. rewrite decide_False by (intros ->; contradiction).
      by rewrite Hrm.
Qed.

End ListRemove.

Section LoadStep.

Context {Price : Type} `{EqDecision Price} {provider : Provider Price}.
Implicit Types (self : Data Price) (bar : Bar Price) (clk : Clock).
Implicit Types (new_bars : list (Entry Price)) (e : Entry Price).

(** A historical poll with nothing left. *)
Lemma load_history_empty clk self new_bars :
  live_bars (p self) = false ->
  history_bars self = [] ->
  _load clk self new_bars
  = (Ok RFalse, put_notification DISCONNECTED self, new_bars).
Proof. intros Hlive Hbars. unfold _load. by rewrite Hlive, Hbars. Qed.

(** A historical poll with bars left: the head is taken off and written. *)
Lemma load_history_head clk self new_bars bar rest :
  live_bars (p self) = false ->
  history_bars self = bar :: rest ->
  _load clk self new_bars
  = (write_lines bar (set_history_bars rest self), new_bars).
Proof.
  intros Hlive Hbars. unfold _load.
  by rewrite Hlive, Hbars, list_remove_head.
Qed.

(** A live poll with no entry for the feed. *)
Lemma load_live_none clk self new_bars :
  live_bars (p self) = true ->
  matching self new_bars = [] ->
  _load clk self new_bars = (Ok RNone, self, new_bars).
Proof.
  intros Hlive Hnone. unfold _load. rewrite Hlive, Hnone. cbn.
  by case_match.
Qed.

(** A live poll with entries for the feed: the first of them is taken
    out of [new_bars], [last_bar_received] is set, and the bar goes
    through the filter and the comparison with [dt_last_open]. *)
Lemma load_live_claim clk self new_bars e others :
  live_bars (p self) = true ->
  matching self new_bars = e :: others ->
  exists before after,
    new_bars = before ++ e :: after
    /\ matching self before = []
    /\ matching self after = others
    /\ let self1 :=
         set_last_bar_received
           (bool_decide (length (e :: others) = 1%nat)) self in
       let rest := before ++ after in
       let bar := r_data (e_response e) in
       _load clk self new_bars
       = match is_bar_valid clk self1 bar with
         | Raise exn => (Raise exn, self1, rest)
         | Ok false => (Ok RNone, self1, rest)
         | Ok true =>
             match get_bar_open_date_time self1 bar with
             | Raise exn => (Raise exn, self1, rest)
             | Ok dt_open =>
                 if datetime_leb dt_open (dt_last_open self1)
                 then (Ok RNone, self1, rest)
                 else
                   let self2 := set_dt_last_open dt_open self1 in
                   let self3 :=
                     if last_bar_received self2 && negb (live_mode self2)
                     then set_live_mode true (put_notification LIVE self2)
                     else if live_mode self2
                             && negb (last_bar_received self2)
                     then set_live_mode false
                                        (put_notification DELAYED self2)
                     else self2 in
                   (write_lines bar self3, rest)
             end
         end.
Proof.
  intros Hlive Hmatch.
  destruct (list_remove_first_filtered _ _ _ _ Hmatch)
    as (before & after & -> & Hbefore & Hafter & Hrm).
  exists before, after. repeat split; [done..|].
  cbn zeta. unfold _load. rewrite Hlive, Hmatch, Hrm. cbn [negb].
  rewrite bool_decide_eq_false_2; [done|].
  rewrite length_app. cbn. lia.
Qed.

(** The open time of a bar depends on the feed's parameters only. *)
Lemma open_date_time_params self1 self2 bar :
  p self1 = p self2 ->
  get_bar_open_date_time self1 bar = get_bar_open_date_time self2 bar.
Proof. unfold get_bar_open_date_time. by intros ->. Qed.

(** [write_lines] either raises and changes nothing, or returns [True]
    and changes [lines] only. *)
Lemma write_lines_cases bar self r self' :
  write_lines bar self = (r, self') ->
  (exists err, get_bar_open_date_time self bar = Raise err
               /\ r = Raise err /\ self' = self)
  \/ (exists dt, get_bar_open_date_time self bar = Ok dt
                 /\ r = Ok RTrue
                 /\ self' = set_lines (Some (line_of self bar dt)) self).
Proof.
  unfold write_lines.
  destruct (get_bar_open_date_time self bar) as [dt|err].
  - intros [= <- <-]. right. by exists dt.
  - intros [= <- <-]. left. by exists err.
Qed.

(** What a live poll that found entries did to [new_bars] and to
    [last_bar_received], whatever it returned. *)
Lemma load_live_taken clk self new_bars e others r self' new_bars' :
  live_bars (p self) = true ->
  matching self new_bars = e :: others ->
  _load clk self new_bars = (r, self', new_bars') ->
  exists before after,
    new_bars = before ++ e :: after
    /\ new_bars' = before ++ after
    /\ matching self before = []
    /\ matching self new_bars' = others
    /\ last_bar_received self'
       = bool_decide (length (e :: others) = 1%nat).
Proof.
  intros Hlive Hmatch Hload.
  destruct (load_live_claim clk _ _ _ _ Hlive Hmatch)
    as (before & after & -> & Hbefore & Hafter & Hstep).
  cbn zeta in Hstep. rewrite Hstep in Hload. clear Hstep.
  exists before, after.
  assert (new_bars' = before ++ after
          /\ last_bar_received self'
             = bool_decide (length (e :: others) = 1%nat)) as [-> Hlast].
  { repeat case_match; simplify_eq; try done;
      match goal with
      | Hw : write_lines _ _ = _ |- _ =>
          apply write_lines_cases in Hw
              as [(? & _ & -> & ->)|(? & _ & -> & ->)]
      end; done. }
  split_and!; try done.
  unfold matching in *. by rewrite filter_app, Hbefore, Hafter.
Qed.

(** C1, as the code has it. A live poll that finds entries of its
    subscription takes exactly one of them out of [new_bars], the one
    that arrived first, and leaves every other entry where it was. It
    sets [last_bar_received] to whether that entry was the only one of
    the subscription: whether none of them remains afterwards. *)
Theorem load_claims_one_entry clk self new_bars r self' new_bars' :
  live_bars (p self) = true ->
  matching self new_bars <> [] ->
  _load clk self new_bars = (r, self', new_bars') ->
  (exists e before after,
      new_bars = before ++ e :: after
      /\ new_bars' = before ++ after
      /\ matching self before = []
      /\ head (matching self new_bars) = Some e)
  /\ S (length (matching self new_bars'))
     = length (matching self new_bars)
  /\ last_bar_received self'
     = bool_decide (length (matching self new_bars) = 1%nat)
  /\ last_bar_received self'
     = bool_decide (length (matching self new_bars') = 0%nat).
Proof.
  intros Hlive Hsome Hload.
  destruct (matching self new_bars) as [|e others] eqn:Hmatch; [done|].
  destruct (load_live_taken _ _ _ _ _ _ _ _ Hlive Hmatch Hload)
    as (before & after & Hnew & -> & Hbefore & Hrest & Hlast).
  rewrite Hrest, Hlast. split_and!; try done.
  - by exists e, before, after.
  - apply bool_decide_ext. cbn.
    split; [intros [= H0]|intros H0]; by rewrite H0.
Qed.

(** Every outcome of a live poll that found entries: what it returned
    and what it did to the feed. *)
Lemma load_live_outcomes clk self new_bars e others r self' new_bars' :
  live_bars (p self) = true ->
  matching self new_bars = e :: others ->
  _load clk self new_bars = (r, self', new_bars') ->
  let self1 :=
    set_last_bar_received (bool_decide (length (e :: others) = 1%nat))
                          self in
  let bar := r_data (e_response e) in
  (r <> Ok RTrue /\ self' = self1)
  \/ (exists dt_open,
         r = Ok RTrue
         /\ get_bar_open_date_time self bar = Ok dt_open
         /\ datetime_ltb (dt_last_open self) dt_open = true
         /\ self'
            = set_lines
                (Some (line_of self bar dt_open))
                (let self2 := set_dt_last_open dt_open self1 in
                 if last_bar_received self2 && negb (live_mode self2)
                 then set_live_mode true (put_notification LIVE self2)
                 else if live_mode self2 && negb (last_bar_received self2)
                 then set_live_mode false (put_notification DELAYED self2)
                 else self2)).
Proof.
  intros Hlive Hmatch Hload self1 bar.
  destruct (load_live_claim clk _ _ _ _ Hlive Hmatch)
    as (before & after & -> & _ & _ & Hstep).
  cbn zeta in Hstep. rewrite Hstep in Hload. clear Hstep.
  fold self1 bar in Hload.
  destruct (is_bar_valid clk self1 bar) as [[|]|];
    [|left; by simplify_eq..].
  destruct (get_bar_open_date_time self1 bar) as [dt_open|] eqn:Hopen;
    [|left; by simplify_eq].
  destruct (datetime_leb dt_open (dt_last_open self1)) eqn:Hstale;
    [left; by simplify_eq|].
  injection Hload as Hload <-.
  match type of Hload with
  | write_lines _ ?self3 = _ =>
      assert (get_bar_open_date_time self3 bar = Ok dt_open) as Hopen3
          by (rewrite <- Hopen; apply open_date_time_params;
              by repeat case_match)
  end.
  apply write_lines_cases in Hload
      as [(err & Hraise & _)|(dt & Hopen' & -> & ->)]; [congruence|].
  right. exists dt_open.
  assert (dt = dt_open) as -> by congruence.
  split; [done|]. split; [exact Hopen|]. split.
  - unfold datetime_leb in Hstale. by apply negb_false_iff in Hstale.
  - unfold line_of. f_equal. by repeat case_match.
Qed.

(** C3. A live poll that emits a bar hands [LIVE] to the status
    notifications, and turns [live_mode] on, exactly when the poll set
    [last_bar_received] and [live_mode] was off; it hands [DELAYED], and
    turns [live_mode] off, exactly when [live_mode] was on and the poll
    cleared [last_bar_received]; otherwise it hands nothing and leaves
    [live_mode] alone. So [LIVE] is never handed over while [live_mode]
    is on. *)
Theorem live_status_transition clk self new_bars self' new_bars' :
  live_bars (p self) = true ->
  _load clk self new_bars = (Ok RTrue, self', new_bars') ->
  exists handed,
    sent self' = sent self ++ handed
    /\ handed
       = (if last_bar_received self' && negb (live_mode self) then [LIVE]
          else if live_mode self && negb (last_bar_received self')
          then [DELAYED]
          else [])
    /\ live_mode self'
       = (if last_bar_received self' && negb (live_mode self) then true
          else if live_mode self && negb (last_bar_received self')
          then false
          else live_mode self)
    /\ (LIVE ∈ handed
        <-> last_bar_received self' = true /\ live_mode self = false)
    /\ (DELAYED ∈ handed
        <-> live_mode self = true /\ last_bar_received self' = false)
    /\ (live_mode self = true -> LIVE ∉ handed).
Proof.
  intros Hlive Hload.
  destruct (matching self new_bars) as [|e others] eqn:Hmatch.
  { by rewrite load_live_none in Hload. }
  destruct (load_live_outcomes _ _ _ _ _ _ _ _ Hlive Hmatch Hload)
    as [[? _]|(dt_open & _ & _ & _ & ->)]; [done|].
  cbn zeta.
  destruct (bool_decide (length (e :: others) = 1%nat)),
    (live_mode self) eqn:Hmode; cbn; rewrite ?Hmode; cbn.
  - exists []. rewrite app_nil_r, !elem_of_nil. intuition congruence.
  - exists [LIVE]. rewrite !list_elem_of_singleton. intuition congruence.
  - exists [DELAYED]. rewrite !list_elem_of_singleton. intuition congruence.
  - exists []. rewrite app_nil_r, !elem_of_nil. intuition congruence.
Qed.

(** C9. A live poll that takes an entry sets [last_bar_received] before
    the filter and the comparison with [dt_last_open]: the new value is
    there whatever the poll returns, also when the bar is filtered out
    or stale. [dt_last_open] and [live_mode] change only in a poll that
    emits a bar. A live poll that finds no entry of the subscription
    changes nothing, and a historical poll changes none of the three. *)
Theorem load_frame clk self new_bars r self' new_bars' :
  _load clk self new_bars = (r, self', new_bars') ->
  (live_bars (p self) = true ->
   matching self new_bars <> [] ->
   last_bar_received self'
   = bool_decide (length (matching self new_bars) = 1%nat))
  /\ (r <> Ok RTrue ->
      dt_last_open self' = dt_last_open self
      /\ live_mode self' = live_mode self)
  /\ (live_bars (p self) = true ->
      matching self new_bars = [] ->
      r = Ok RNone /\ self' = self /\ new_bars' = new_bars)
  /\ (live_bars (p self) = false ->
      last_bar_received self' = last_bar_received self
      /\ dt_last_open self' = dt_last_open self
      /\ live_mode self' = live_mode self).
Proof.
  intros Hload.
  assert (live_bars (p self) = false ->
          last_bar_received self' = last_bar_received self
          /\ dt_last_open self' = dt_last_open self
          /\ live_mode self' = live_mode self) as Hhistory.
  { intros Hlive. destruct (history_bars self) as [|bar rest] eqn:Hbars.
    - rewrite load_history_empty in Hload by done. by simplify_eq.
    - rewrite (load_history_head _ _ _ bar rest) in Hload by done.
      destruct (write_lines bar (set_history_bars rest self))
        as [r0 self0] eqn:Hw. simplify_eq.
      by apply write_lines_cases in Hw
          as [(? & _ & -> & ->)|(? & _ & -> & ->)]. }
  assert (r <> Ok RTrue ->
          dt_last_open self' = dt_last_open self
          /\ live_mode self' = live_mode self) as Hquiet.
  { destruct (live_bars (p self)) eqn:Hlive;
      [|intros _; by destruct (Hhistory eq_refl) as (_ & ? & ?)].
    intros Hr. destruct (matching self new_bars) as [|e others] eqn:Hmatch.
    - rewrite load_live_none in Hload by done. by simplify_eq.
    - by destruct (load_live_outcomes _ _ _ _ _ _ _ _ Hlive Hmatch Hload)
        as [[_ ->]|(? & -> & _)]. }
  split; [|split; [exact Hquiet|split; [|exact Hhistory]]].
  - intros Hlive Hsome.
    destruct (matching self new_bars) as [|e others] eqn:Hmatch; [done|].
    by destruct (load_live_taken _ _ _ _ _ _ _ _ Hlive Hmatch Hload)
      as (_ & _ & _ & _ & _ & _ & ?).
  - intros Hlive Hnone. rewrite load_live_none in Hload by done.
    by simplify_eq.
Qed.

End LoadStep.

(** With two entries of the subscription in the store, one remains after
    the poll, and [last_bar_received] is false. *)
Lemma last_bar_received_false_with_one_left :
  live_bars (p Example.live_feed) = true
  /\ matching Example.live_feed Example.two_pending <> []
  /\ length (matching Example.live_feed
                      (_load Example.noon Example.live_feed
                             Example.two_pending).2) = 1%nat
  /\ last_bar_received
       (_load Example.noon Example.live_feed Example.two_pending).1.2
     = false
  /\ last_bar_received
       (_load Example.noon Example.live_feed Example.two_pending).1.2
     <> bool_decide
          (length (matching Example.live_feed
                            (_load Example.noon Example.live_feed
                                   Example.two_pending).2) = 1%nat).
Proof. by vm_compute. Qed.

Lemma load_claims_one_entry_witness :
  last_bar_received
    (_load Example.noon Example.live_feed Example.two_pending).1.2
  = bool_decide
      (length (matching Example.live_feed
                        (_load Example.noon Example.live_feed
                               Example.two_pending).2) = 0%nat).
Proof.
  destruct (_load Example.noon Example.live_feed Example.two_pending)
    as [[r self'] new_bars'] eqn:Hload.
  cbn [fst snd].
  destruct (load_claims_one_entry Example.noon Example.live_feed
                                  Example.two_pending r self' new_bars')
    as (_ & _ & _ & Hlast); [reflexivity | by vm_compute | exact Hload |].
  exact Hlast.
Defined.

(** The second poll of the two entries emits the bar at [t6] and hands
    [LIVE] over. *)
Lemma live_status_transition_witness :
  exists handed,
    sent (_load Example.noon
                (_load Example.noon Example.live_feed Example.two_pending).1.2
                (_load Example.noon Example.live_feed Example.two_pending).2
         ).1.2
    = [] ++ handed
    /\ LIVE ∈ handed.
Proof.
  destruct (_load Example.noon Example.live_feed Example.two_pending)
    as [[r1 self1] new_bars1] eqn:Hfirst.
  vm_compute in Hfirst. injection Hfirst as <- <- <-.
  match goal with
  | |- context [_load ?c ?d ?n] =>
      destruct (_load c d n) as [[r2 self2] new_bars2] eqn:Hsecond;
      pose proof (live_status_transition c d n self2 new_bars2 eq_refl)
        as Hstep
  end.
  vm_compute in Hsecond. injection Hsecond as <- <- <-.
  destruct (Hstep eq_refl) as (handed & Hsent & -> & _).
  exists [LIVE]. split; [reflexivity | left].
Defined.

(** A doji that the filter rejects: the poll returns [None], and sets
    [last_bar_received] on its way. *)
Lemma load_frame_witness :
  (_load Example.noon Example.live_feed Example.doji_pending).1.1 = Ok RNone
  /\ last_bar_received Example.live_feed = false
  /\ last_bar_received
       (_load Example.noon Example.live_feed Example.doji_pending).1.2
     = true.
Proof.
  split; [by vm_compute|]. split; [by vm_compute|].
  destruct (_load Example.noon Example.live_feed Example.doji_pending)
    as [[r self'] new_bars'] eqn:Hload.
  destruct (load_frame _ _ _ _ _ _ Hload) as (Hlast & _).
  cbn [fst snd]. rewrite Hlast; by vm_compute.
Defined.

(** ** The order of open times *)






(** ** Runs of the pull loop *)

Section Runs.

Context {Price : Type} `{EqDecision Price} {provider : Provider Price}.
Implicit Types (self : Data Price) (bar : Bar Price) (clk : Clock).
Implicit Types (new_bars : list (Entry Price)) (ticks : list (Tick Price)).
Implicit Types (trace : list (result load_ret * Data Price)).

Lemma run_cons t ticks self new_bars r self' new_bars' :
  _load (tick_clock t) self (tick_new_bars t new_bars) = (r, self', new_bars') ->
  run (t :: ticks) self new_bars = (r, self') :: run ticks self' new_bars'.
Proof. intros Hload. cbn [run]. rewrite Hload. reflexivity. Qed.

Lemma final_cons self step trace :
  final self (step :: trace) = final step.2 trace.
Proof. unfold final. rewrite last_cons. by destruct (last trace). Qed.

Lemma emitted_lines_cons step trace :
  emitted_lines (step :: trace)
  = match emitted step with
    | Some l => l :: emitted_lines trace
    | None => emitted_lines trace
    end.
Proof. reflexivity. Qed.



(** A historical poll of a feed whose bars all have an open time. *)
Lemma load_history_step clk self new_bars :
  live_bars (p self) = false ->
  Forall (fun bar => exists dt, get_bar_open_date_time self bar = Ok dt)
         (history_bars self) ->
  match history_bars self with
  | [] =>
      _load clk self new_bars
      = (Ok RFalse, put_notification DISCONNECTED self, new_bars)
  | bar :: rest =>
      exists dt,
        get_bar_open_date_time self bar = Ok dt
        /\ _load clk self new_bars
           = (Ok RTrue,
              set_lines (Some (line_of self bar dt))
                        (set_history_bars rest self),
              new_bars)
  end.
Proof.
  intros Hlive Hopen. destruct (history_bars self) as [|bar rest] eqn:Hbars.
  - by apply load_history_empty.
  - apply Forall_cons in Hopen as [[dt Hdt] _]. exists dt. split; [done|].
    rewrite (load_history_head _ _ _ bar rest) by done.
    unfold write_lines.
    by rewrite (open_date_time_params _ self) by done; rewrite Hdt.
Qed.

(** A historical run: the first polls emit the bars of [history_bars] in
    order, the later ones return [False] and hand [DISCONNECTED] over;
    nothing else of the feed changes. *)
Lemma run_history ticks :
  forall self new_bars,
    live_bars (p self) = false ->
    Forall (fun bar => exists dt, get_bar_open_date_time self bar = Ok dt)
           (history_bars self) ->
    let trace := run ticks self new_bars in
    let n := length (history_bars self) in
    let k := length ticks in
    map fst trace
    = replicate (k `min` n) (Ok RTrue) ++ replicate (k - n) (Ok RFalse)
    /\ Forall2 (fun bar l =>
                  exists dt, get_bar_open_date_time self bar = Ok dt
                             /\ l = line_of self bar dt)
               (take k (history_bars self)) (emitted_lines trace)
    /\ final self trace
       = mk_Data (p self) (provider_name self) (exchange self) (symbol self)
                 (drop k (history_bars self)) (guid self) (dt_last_open self)
                 (last_bar_received self) (live_mode self)
                 (match last (emitted_lines trace) with
                  | Some l => Some l
                  | None => lines self
                  end)
                 (sent self ++ replicate (k - n) DISCONNECTED).
Proof.
  induction ticks as [|t ticks IH]; intros self new_bars Hlive Hopen.
  { cbn. rewrite drop_0, app_nil_r. split; [done|]. split; [constructor|].
    by destruct self. }
  pose proof (load_history_step (tick_clock t) self
                                (tick_new_bars t new_bars) Hlive Hopen)
    as Hstep.
  destruct (history_bars self) as [|bar rest] eqn:Hbars.
  - rewrite (run_cons _ _ _ _ _ _ _ Hstep).
    destruct (IH (put_notification DISCONNECTED self)
                 (tick_new_bars t new_bars) Hlive)
      as (Hrets & Hlines & Hfinal); [cbn; by rewrite Hbars|].
    cbn in Hrets, Hlines, Hfinal. rewrite Hbars in Hrets, Hlines, Hfinal.
    cbn in Hrets, Hlines, Hfinal.
    rewrite Nat.min_0_r, Nat.sub_0_r in *.
    cbn zeta. rewrite final_cons, emitted_lines_cons. cbn.
    rewrite take_nil in Hlines. apply Forall2_nil_inv_l in Hlines.
    rewrite Hrets, Hfinal, Hlines. split; [done|]. split; [constructor|].
    by rewrite drop_nil, <- app_assoc.
  - destruct Hstep as (dt & Hdt & Hstep).
    rewrite (run_cons _ _ _ _ _ _ _ Hstep).
    apply Forall_cons in Hopen as [_ Hrest].
    destruct (IH (set_lines (Some (line_of self bar dt))
                            (set_history_bars rest self))
                 (tick_new_bars t new_bars) Hlive)
      as (Hrets & Hlines & Hfinal); [done|].
    cbn in Hrets, Hlines, Hfinal.
    cbn zeta. rewrite final_cons, emitted_lines_cons. cbn.
    rewrite Hrets, Hfinal. split; [done|]. split.
    + constructor; [exists dt; by split|].
      eapply Forall2_impl; [exact Hlines|].
      intros b l (dt0 & Hdt0 & ->). exists dt0. split; [exact Hdt0|done].
    + rewrite last_cons. f_equal. by destruct (last _).
Qed.

(** A bar the filter accepts has an open time. *)
Lemma is_bar_valid_open clk self bar :
  is_bar_valid clk self bar = Ok true ->
  exists dt, get_bar_open_date_time self bar = Ok dt.
Proof.
  unfold is_bar_valid.
  destruct (get_bar_open_date_time self bar) as [dt|]; [by exists dt|done].
Qed.

(** The loop of [start] appends to [history_bars] the fetched bars that
    pass the filter, in the order fetched, and changes nothing else. *)
Lemma start_loop_kept clocks fetched :
  forall i self r self',
    start_loop clocks i fetched self = (r, self') ->
    exists kept,
      self' = set_history_bars (history_bars self ++ kept) self
      /\ sublist kept fetched
      /\ Forall (fun bar => exists clk, is_bar_valid clk self bar = Ok true)
                kept
      /\ (r = Ok tt ->
          (kept <> [] <->
           exists k bar,
             fetched !! k = Some bar
             /\ is_bar_valid (clocks (i + k)%nat) self bar = Ok true)).
Proof.
  induction fetched as [|bar fetched IH]; intros i self r self' Hloop.
  { injection Hloop as <- <-. exists []. rewrite app_nil_r.
    split; [by destruct self|]. split; [done|]. split; [done|].
    intros _. split; [done|]. by intros (k & b & ? & _). }
  cbn [start_loop] in Hloop.
  destruct (is_bar_valid (clocks i) self bar) as [[|]|err] eqn:Hvalid.
  - apply IH in Hloop as (kept & -> & Hsub & Hall & Hsome).
    exists (bar :: kept). cbn. rewrite <- app_assoc. cbn.
    split; [done|]. split; [by constructor|]. split.
    + constructor; [by exists (clocks i)|exact Hall].
    + intros _. split; [|done]. intros _. exists 0%nat, bar.
      by rewrite Nat.add_0_r.
  - apply IH in Hloop as (kept & -> & Hsub & Hall & Hsome).
    exists kept. split; [done|]. split; [by constructor|].
    split; [done|]. intros Hr. rewrite (Hsome Hr). split.
    + intros (k & b & Hk & Hb). exists (S k), b.
      by rewrite <- Nat.add_succ_comm.
    + intros ([|k] & b & Hk & Hb).
      * cbn in Hk. rewrite Nat.add_0_r in Hb. congruence.
      * exists k, b. by rewrite Nat.add_succ_comm.
  - injection Hloop as <- <-. exists []. rewrite app_nil_r.
    split; [by destruct self|]. split; [apply sublist_nil_l|].
    split; [done|]. done.
Qed.

(** [start] of a historical feed that was just made: what the feed holds
    when [start] returns. *)
Lemma start_history params name exch sym clocks fetched new_guid self :
  live_bars params = false ->
  start clocks fetched new_guid (init params name exch sym) = (Ok tt, self) ->
  exists kept,
    sublist kept fetched
    /\ Forall (fun bar =>
                 exists clk, is_bar_valid clk (init params name exch sym) bar
                             = Ok true) kept
    /\ (kept <> [] <->
        exists k bar,
          fetched !! k = Some bar
          /\ is_bar_valid (clocks k) (init params name exch sym) bar
             = Ok true)
    /\ self
       = mk_Data params name exch sym kept None datetime_min false false None
                 (DELAYED :: if bool_decide (kept = []) then []
                             else [CONNECTED]).
Proof.
  intros Hlive. unfold start. cbn [p put_notification init]. rewrite Hlive.
  cbn [negb].
  destruct (start_loop _ _ _ _) as [[[]|err] self1] eqn:Hloop;
    [|discriminate].
  apply start_loop_kept in Hloop as (kept & -> & Hsub & Hall & Hsome).
  cbn in *. intros Hstart. exists kept.
  split; [done|]. split; [exact Hall|]. split; [by apply Hsome|].
  destruct kept as [|bar kept]; cbn in Hstart; by injection Hstart as <-.
Qed.


End Runs.



(** ** The life of a historical feed *)

Section Lifetime.

Context {Price : Type} `{EqDecision Price} {provider : Provider Price}.
Implicit Types (self : Data Price) (bar : Bar Price) (clk : Clock).
Implicit Types (new_bars : list (Entry Price)) (ticks : list (Tick Price)).

(** A historical feed after [start], polled any number of times. *)
Lemma run_started params name exch sym clocks fetched new_guid self :
  live_bars params = false ->
  start clocks fetched new_guid (init params name exch sym) = (Ok tt, self) ->
  forall ticks new_bars,
    let trace := run ticks self new_bars in
    let n := length (history_bars self) in
    let k := length ticks in
    map fst trace
    = replicate (k `min` n) (Ok RTrue) ++ replicate (k - n) (Ok RFalse)
    /\ Forall2 (fun bar l =>
                  exists dt, get_bar_open_date_time self bar = Ok dt
                             /\ l = line_of self bar dt)
               (take k (history_bars self)) (emitted_lines trace)
    /\ history_bars (final self trace) = drop k (history_bars self)
    /\ sent (stop (final self trace))
       = sent self ++ replicate (k - n) DISCONNECTED.
Proof.
  intros Hlive Hstart ticks new_bars.
  destruct (start_history _ _ _ _ _ _ _ _ Hlive Hstart)
    as (kept & _ & Hvalid & _ & ->).
  cbn zeta.
  match goal with
  | |- context [run ticks ?d new_bars] =>
      destruct (run_history ticks d new_bars) as (Hrets & Hlines & Hfinal)
  end; [done| |].
  { cbn. eapply Forall_impl; [exact Hvalid|].
    intros bar [clk Hbar]. by apply is_bar_valid_open in Hbar. }
  cbn in Hrets, Hlines, Hfinal. cbn.
  rewrite Hrets, Hfinal. by split_and!.
Qed.



(** C10. When [start] of a historical feed returns, it has handed
    [CONNECTED] over if and only if some fetched bar passed the filter.
    When none passed, it has handed over [DELAYED] only; the first poll
    then returns [False] and hands [DISCONNECTED] over, later polls do the
    same, and [CONNECTED] never appears. *)
Theorem history_start_connected
    params name exch sym clocks fetched new_guid self :
  live_bars params = false ->
  start clocks fetched new_guid (init params name exch sym) = (Ok tt, self) ->
  let passes :=
    exists k bar,
      fetched !! k = Some bar
      /\ is_bar_valid (clocks k) (init params name exch sym) bar = Ok true in
  (CONNECTED ∈ sent self <-> passes)
  /\ (passes -> sent self = [DELAYED; CONNECTED])
  /\ (~ passes ->
      sent self = [DELAYED]
      /\ forall ticks new_bars,
          let trace := run ticks self new_bars in
          map fst trace = replicate (length ticks) (Ok RFalse)
          /\ emitted_lines trace = []
          /\ sent (stop (final self trace))
             = DELAYED :: replicate (length ticks) DISCONNECTED
          /\ (length ticks = 1%nat ->
              sent (stop (final self trace)) = [DELAYED; DISCONNECTED])
          /\ CONNECTED ∉ sent (stop (final self trace))).
Proof.
  intros Hlive Hstart passes.
  pose proof (run_started _ _ _ _ _ _ _ _ Hlive Hstart) as Hrun.
  destruct (start_history _ _ _ _ _ _ _ _ Hlive Hstart)
    as (kept & _ & _ & Hsome & ->).
  fold passes in Hsome. cbn [sent history_bars] in *.
  case_bool_decide as Hkept.
  - assert (~ passes) as Hnone by (rewrite <- Hsome; by intros []).
    subst kept. split; [|split; [done|]].
    + rewrite list_elem_of_singleton. intuition congruence.
    + intros _. split; [done|]. intros ticks new_bars.
      destruct (Hrun ticks new_bars) as (Hrets & Hlines & _ & Hsent).
      cbn in Hrets, Hlines, Hsent.
      rewrite Nat.min_0_r, Nat.sub_0_r in *. rewrite take_nil in Hlines.
      apply Forall2_nil_inv_l in Hlines.
      split_and!; try done.
      * intros Hone. rewrite Hsent, Hone. done.
      * rewrite Hsent, elem_of_cons. intros [|Hin]; [done|].
        by apply elem_of_replicate in Hin as [? _].
  - assert passes as Hyes by by apply Hsome.
    split; [|split; [done|done]].
    rewrite !elem_of_cons. intuition.
Qed.

End Lifetime.



(** Only a doji fetched: nothing passes, and the statuses are [DELAYED]
    at [start] and [DISCONNECTED] at the first poll. *)
Lemma history_start_connected_witness :
  sent Example.started_on_doji = [DELAYED]
  /\ sent (stop (final Example.started_on_doji
                       (run [Example.tick] Example.started_on_doji [])))
     = [DELAYED; DISCONNECTED].
Proof.
  destruct (history_start_connected
              (Example.params Days false false) "alor" "MOEX" "SBER"
              (fun _ => Example.noon) [Example.doji_at Example.t5]
              "" Example.started_on_doji eq_refl)
    as (_ & _ & Hnone); [by vm_compute|].
  destruct Hnone as (Hsent & Hpolls).
  { intros ([|k] & bar & Hk & Hbar); [|done].
    injection Hk as <-. by vm_compute in Hbar. }
  split; [exact Hsent|].
  by destruct (Hpolls [Example.tick] []) as (_ & _ & _ & Hone & _); apply Hone.
Defined.

(** * Further properties of the code *)

(** ** The notification queue over several calls *)

Section Drains.

Context {Notif : Type}.
Implicit Types (queued between : list Notif) (arrive : nat -> list Notif).

Lemma put_notifications_behind queued between :
  foldl (fun notifs n => Store.put_notification n notifs) (map Some queued)
        between
  = map Some (queued ++ between).
Proof.
  revert queued. induction between as [|n between IH]; intros queued; cbn.
  - by rewrite app_nil_r.
  - unfold Store.put_notification at 2.
    change [Some n] with (map Some [n]). rewrite <- map_app, IH.
    by rewrite <- app_assoc.
Qed.

(** X1. Two calls of [get_notifications] in a row lose nothing and repeat
    nothing: the second returns, oldest first, what other threads put
    while the first ran, followed by what was put between the two calls;
    what is put while the second runs stays queued. *)
Theorem get_notifications_twice queued arrive1 between arrive2
    (fuel1 fuel2 : nat) :
  let during1 := Store.arrived arrive1 0 (S (length queued)) in
  let second := during1 ++ between in
  (length queued < fuel1)%nat ->
  (length second < fuel2)%nat ->
  exists left1,
    Store.get_notifications fuel1 arrive1 (map Some queued)
    = Some (Ok (queued, left1))
    /\ Store.get_notifications
         fuel2 arrive2
         (foldl (fun notifs n => Store.put_notification n notifs) left1
                between)
       = Some (Ok (second,
                   map Some (Store.arrived arrive2 0 (S (length second))))).
Proof.
  intros during1 second Hfuel1 Hfuel2.
  exists (map Some during1). split.
  - unfold Store.get_notifications.
    change [None] with (None :: map Some (@nil Notif)).
    by rewrite drain_behind_mark.
  - rewrite put_notifications_behind. fold second.
    unfold Store.get_notifications.
    change [None] with (None :: map Some (@nil Notif)).
    by rewrite drain_behind_mark.
Qed.

End Drains.

Lemma get_notifications_twice_witness :
  exists left1,
    Store.get_notifications 3 (fun _ => [LIVE]) (map Some [DELAYED])
    = Some (Ok ([DELAYED], left1))
    /\ Store.get_notifications
         5 (fun _ => [])
         (foldl (fun notifs n => Store.put_notification n notifs) left1
                [DISCONNECTED])
       = Some (Ok ([LIVE; LIVE; DISCONNECTED], [])).
Proof.
  apply (get_notifications_twice [DELAYED] (fun _ => [LIVE]) [DISCONNECTED]
                                 (fun _ => []) 3 5); cbn; lia.
Defined.

(** ** The provider's name of a time frame *)

(** The decimal form of a number starts with a digit. *)
Lemma pretty_N_go_head (x : N) (s : string) :
  (0 < x)%N ->
  exists c rest,
    pretty_N_go x s = String c rest
    /\ c ∈ ["0"; "1"; "2"; "3"; "4"; "5"; "6"; "7"; "8"; "9"]%char.
Proof.
  revert s. induction (N.lt_wf_0 x) as [x _ IH]; intros s Hx.
  rewrite pretty_N_go_step by done.
  destruct (decide (x `div` 10 = 0)%N) as [->|Hdiv].
  - rewrite pretty_N_go_0. eexists _, _. split; [done|].
    unfold pretty_N_char. repeat case_match; repeat constructor.
  - apply IH; [by apply N.div_lt | by apply N.neq_0_lt_0].
Qed.

(** The decimal form of an integer is never one of the letters that name
    the day, week, month and year time frames. *)
Lemma pretty_Z_not_letter (z : Z) (letter : string) :
  letter ∈ ["D"; "W"; "M"; "Y"]%string -> pretty z <> letter.
Proof.
  intros Hletter Heq.
  assert (exists c rest,
             pretty z = String c rest
             /\ c ∈ ["0"; "1"; "2"; "3"; "4"; "5"; "6"; "7"; "8"; "9"; "-"]%char)
    as (c & rest & Hz & Hc).
  { destruct z as [|x|x]; unfold pretty, pretty_Z.
    - eexists _, _. split; [done|]. repeat constructor.
    - unfold pretty, pretty_positive, pretty, pretty_N.
      rewrite decide_False by done.
      destruct (pretty_N_go_head (N.pos x) "") as (c & rest & -> & Hc);
        [lia|].
      exists c, rest. split; [done|].
      rewrite !elem_of_cons in Hc. rewrite !elem_of_cons. tauto.
    - eexists _, _. split; [done|]. repeat constructor. }
  rewrite Hz in Heq. subst letter.
  rewrite !elem_of_cons, elem_of_nil in Hletter.
  rewrite !elem_of_cons, elem_of_nil in Hc.
  destruct Hletter as [Hl|[Hl|[Hl|[Hl|[]]]]]; injection Hl as -> ->;
    intuition discriminate.
Qed.

(** X2. Two time frames get the same name from [timeframe_to_alor_timeframe]
    exactly when they are the same of day, week, month, year (whatever
    their compressions), or are both counted in seconds and last the same
    number of seconds, a minute counting as 60: the name tells the length
    of the bar, and a name of digits is never taken for one of the
    letters. *)
Theorem alor_timeframe_names (tf tf' : TimeFrame) (c c' : Z) :
  let lettered (t : TimeFrame) := t ∈ [Days; Weeks; Months; Years] in
  let seconds (t : TimeFrame) (n : Z) :=
    if decide (t = Minutes) then n * 60 else n in
  Store.timeframe_to_alor_timeframe tf c
  = Store.timeframe_to_alor_timeframe tf' c'
  <-> (lettered tf /\ tf' = tf)
      \/ (~ lettered tf /\ ~ lettered tf' /\ seconds tf c = seconds tf' c').
Proof.
  intros lettered seconds. subst lettered seconds. cbn beta.
  assert (forall z l, l ∈ ["D"; "W"; "M"; "Y"]%string -> l <> pretty z)
    as Hsym by (intros z l Hl Heq; by apply (pretty_Z_not_letter z l)).
  destruct tf, tf'; unfold Store.timeframe_to_alor_timeframe; simpl;
    rewrite ?elem_of_cons, ?elem_of_nil;
    (split;
     [ intros Heq;
       first
         [ by left; split; [tauto|]
         | right; split_and!;
           [intuition discriminate | intuition discriminate
            | by apply pretty_Z_inj in Heq]
         | exfalso; revert Heq;
           first [ apply pretty_Z_not_letter | apply Hsym ];
           repeat constructor
         | discriminate ]
     | intros [[Hl Heq]|(Hn & Hn' & Heq)];
       first
         [ discriminate
         | by rewrite Heq
         | reflexivity
         | exfalso; intuition discriminate
         | exfalso; apply Hn; tauto
         | exfalso; apply Hn'; tauto ] ]).
Qed.

Lemma alor_timeframe_names_witness :
  Store.timeframe_to_alor_timeframe Minutes 5
  = Store.timeframe_to_alor_timeframe Seconds 300.
Proof.
  apply (alor_timeframe_names Minutes Seconds 5 300). right.
  split_and!; [| |reflexivity];
    rewrite !elem_of_cons, elem_of_nil; intuition discriminate.
Defined.

(** ** More on the close time of a bar *)

Section CloseTimes.

Context {Price : Type} `{EqDecision Price} {provider : Provider Price}.
Implicit Types (self : Data Price) (dt_open : datetime).

(** X3. Whenever [timeframe_to_timedelta] gives the length of a bar, the
    close time the filter computes for one period is the open time plus
    that length: the schedule thread and the filter agree on how long a
    bar lasts. *)
Theorem close_time_adds_timeframe self dt_open (time_frame : timedelta) :
  Store.timeframe_to_timedelta (timeframe (p self)) (compression (p self))
  = Ok time_frame ->
  get_bar_close_date_time self dt_open 1 = datetime_add dt_open time_frame.
Proof.
  unfold Store.timeframe_to_timedelta, get_bar_close_date_time.
  rewrite Z.mul_1_r.
  repeat case_decide; try discriminate; intros Hlength;
    by rewrite Hlength.
Qed.

Lemma month_close_unfold self dt_open (period : Z) :
  timeframe (p self) = Months ->
  get_bar_close_date_time self dt_open period
  = datetime_new (year dt_open + (month dt_open + period - 1) / 12)
                 ((month dt_open + period - 1) mod 12 + 1) 1 0 0 0 0.
Proof. intros Htf. unfold get_bar_close_date_time. by rewrite Htf. Qed.

Lemma year_close_unfold self dt_open (period : Z) :
  timeframe (p self) = Years ->
  get_bar_close_date_time self dt_open period
  = replace_year dt_open (year dt_open + period).
Proof. intros Htf. unfold get_bar_close_date_time. by rewrite Htf. Qed.

(** X4. On the month time frame, closing a bar of [period1] months and
    then a bar of [period2] months from there gives the close time of one
    bar of [period1 + period2] months; and for a period of at least one
    month the close time is after the open time. *)
Theorem month_close_composes self dt_open (period1 period2 : Z) dt_close :
  timeframe (p self) = Months ->
  get_bar_close_date_time self dt_open period1 = Ok dt_close ->
  get_bar_close_date_time self dt_close period2
  = get_bar_close_date_time self dt_open (period1 + period2)
  /\ (1 <= period1 -> 1 <= month dt_open <= 12 ->
      datetime_ltb dt_open dt_close = true).
Proof.
  intros Htf. rewrite !month_close_unfold by done.
  intros (-> & _)%datetime_new_inv. cbn [year month].
  set (a := month dt_open + period1 - 1) in *.
  pose proof (Z.div_mod a 12 ltac:(lia)) as Ha.
  pose proof (Z.mod_pos_bound a 12 ltac:(lia)) as Hm.
  split.
  - replace (a mod 12 + 1 + period2 - 1) with (a mod 12 + period2) by lia.
    replace (month dt_open + (period1 + period2) - 1)
      with (a mod 12 + period2 + a / 12 * 12) by lia.
    rewrite Z.div_add, Z.mod_add by lia.
    set (carry := (a mod 12 + period2) / 12).
    by replace (year dt_open + (carry + a / 12))
      with (year dt_open + a / 12 + carry) by lia.
  - intros Hperiod Hmonth. unfold datetime_ltb, datetime_key. cbn.
    destruct (Z.ltb_spec (year dt_open) (year dt_open + a / 12));
      [done|]. cbn.
    assert (a / 12 = 0) as Hq by lia. rewrite Hq, Z.add_0_r, Z.eqb_refl.
    cbn. rewrite (proj2 (Z.ltb_lt _ _)) by lia. done.
Qed.

(** X5. On the year time frame the close time keeps the month, the day
    and the time of day of the open time, [period] years on. For an open
    time that is a date: if that year does not fit a C [int],
    [OverflowError] is raised; else the close time exists unless that year
    is outside 1 to 9999, or the open time is a 29th of February and that
    year is not a leap year, and then [ValueError] is raised. *)
Theorem year_close_date_time self dt_open (period : Z) :
  timeframe (p self) = Years ->
  datetime_new (year dt_open) (month dt_open) (day dt_open) (hour dt_open)
               (minute dt_open) (second dt_open) (microsecond dt_open)
  = Ok dt_open ->
  let y := year dt_open + period in
  get_bar_close_date_time self dt_open period
  = if negb ((-2147483648 <=? y) && (y <=? 2147483647))
    then Raise OverflowError
    else if bool_decide (1 <= y <= 9999)
            && negb ((month dt_open =? 2) && (day dt_open =? 29)
                     && negb (is_leap y))
    then Ok (mk_datetime y (month dt_open) (day dt_open) (hour dt_open)
                         (minute dt_open) (second dt_open)
                         (microsecond dt_open))
    else Raise ValueError.
Proof.
  intros Htf Hvalid y. rewrite year_close_unfold by done.
  unfold replace_year. fold y.
  apply datetime_new_inv in Hvalid
      as (_ & Hy & Hm & Hd & Hhh & Hmm & Hss & Hus).
  pose proof (days_in_month_bound (year dt_open) (month dt_open)) as Hdim.
  assert ((day dt_open <=? days_in_month y (month dt_open))
          = negb ((month dt_open =? 2) && (day dt_open =? 29)
                  && negb (is_leap y))) as Hday.
  { unfold days_in_month in *.
    destruct (month dt_open =? 2) eqn:Hfeb; cbn [andb] in *.
    - assert (day dt_open <= 29).
      { unfold days_in_month_table in Hd. rewrite Hfeb in Hd.
        destruct (is_leap (year dt_open)); lia. }
      unfold days_in_month_table. rewrite Hfeb.
      destruct (is_leap y); cbn.
      + rewrite andb_false_r. cbn. apply Z.leb_le. lia.
      + rewrite andb_true_r.
        destruct (Z.eqb_spec (day dt_open) 29) as [->|Hne]; [done|].
        cbn. apply Z.leb_le. lia.
    - cbn. apply Z.leb_le. lia. }
  rewrite <- Hday.
  assert (forall z, -2147483648 <= z <= 2147483647 -> fits_c_int z = true)
    as Hfits.
  { intros z Hz. unfold fits_c_int. by rewrite !(proj2 (Z.leb_le _ _)) by lia. }
  unfold datetime_new, MINYEAR, MAXYEAR. cbn [forallb].
  rewrite (Hfits (month dt_open)), (Hfits (day dt_open)),
    (Hfits (hour dt_open)), (Hfits (minute dt_open)),
    (Hfits (second dt_open)), (Hfits (microsecond dt_open)) by lia.
  rewrite !andb_true_r.
  change (fits_c_int y) with ((-2147483648 <=? y) && (y <=? 2147483647)).
  destruct (negb ((-2147483648 <=? y) && (y <=? 2147483647))); [done|].
  rewrite (proj2 (Z.leb_le 1 (month dt_open))),
    (proj2 (Z.leb_le (month dt_open) 12)),
    (proj2 (Z.leb_le 1 (day dt_open))),
    (proj2 (Z.leb_le 0 (hour dt_open))),
    (proj2 (Z.leb_le (hour dt_open) 23)),
    (proj2 (Z.leb_le 0 (minute dt_open))),
    (proj2 (Z.leb_le (minute dt_open) 59)),
    (proj2 (Z.leb_le 0 (second dt_open))),
    (proj2 (Z.leb_le (second dt_open) 59)),
    (proj2 (Z.leb_le 0 (microsecond dt_open))),
    (proj2 (Z.leb_le (microsecond dt_open) 999999)) by lia.
  rewrite !andb_true_r.
  case_bool_decide as Hyear.
  - by rewrite (proj2 (Z.leb_le 1 y)), (proj2 (Z.leb_le y 9999)) by lia.
  - assert ((1 <=? y) && (y <=? 9999) = false) as ->; [|done].
    apply andb_false_iff. rewrite !Z.leb_gt. lia.
Qed.

End CloseTimes.

Lemma close_time_adds_timeframe_witness :
  get_bar_close_date_time Example.live_feed (mk_datetime 2024 1 31 23 59 0 0) 1
  = datetime_add (mk_datetime 2024 1 31 23 59 0 0) (mk_timedelta 0 60 0).
Proof.
  apply (close_time_adds_timeframe Example.live_feed). reflexivity.
Defined.

Lemma month_close_composes_witness :
  get_bar_close_date_time Example.month_feed (mk_datetime 2024 12 1 0 0 0 0) 2
  = get_bar_close_date_time Example.month_feed
                            (mk_datetime 2024 11 15 9 30 0 0) (1 + 2)
  /\ datetime_ltb (mk_datetime 2024 11 15 9 30 0 0)
                  (mk_datetime 2024 12 1 0 0 0 0) = true.
Proof.
  destruct (month_close_composes Example.month_feed
                                 (mk_datetime 2024 11 15 9 30 0 0) 1 2
                                 (mk_datetime 2024 12 1 0 0 0 0)
                                 eq_refl eq_refl) as [Hcompose Hafter].
  split; [exact Hcompose|]. apply Hafter; cbn; lia.
Defined.

(** A year bar that opens on 29 February 2024 has no close time. *)
Lemma year_close_date_time_witness :
  get_bar_close_date_time Example.year_feed (mk_datetime 2024 2 29 0 0 0 0) 1
  = Raise ValueError.
Proof.
  exact (year_close_date_time Example.year_feed
                              (mk_datetime 2024 2 29 0 0 0 0) 1
                              eq_refl eq_refl).
Defined.

(** ** More on the session filter and on one poll *)

Section Polls.

Context {Price : Type} `{EqDecision Price} {provider : Provider Price}.
Implicit Types (self other : Data Price) (bar : Bar Price) (clk : Clock).
Implicit Types (new_bars : list (Entry Price)) (e : Entry Price).

(** X6. With the session bounds left at their defaults ([time.min] and
    23:59:59.999990), the first two rules of the filter reject nothing: a
    bar whose times exist is rejected only as a four-price doji that is
    not let through, or as a bar that is still forming while the session
    is open. *)
Theorem default_session_filter clk self bar dt_open dt_close now :
  sessionstart (p self) = time_min ->
  sessionend (p self) = mk_time 23 59 59 999990 ->
  get_bar_open_date_time self bar = Ok dt_open ->
  get_bar_close_date_time self dt_open 1 = Ok dt_close ->
  get_alor_date_time_now clk self = Ok now ->
  is_bar_valid clk self bar
  = Ok (negb (negb (four_price_doji (p self))
              && bool_decide
                   (alor_price_to_price (exchange self) (symbol self)
                                        (bar_high bar)
                    = alor_price_to_price (exchange self) (symbol self)
                                          (bar_low bar)))
        && negb (datetime_ltb now dt_close
                 && time_ltb (time_of now) (mk_time 23 59 59 999990))).
Proof.
  intros Hstart Hend Hopen Hclose Hnow. unfold is_bar_valid.
  rewrite Hopen, Hstart, Hend. cbn. rewrite Hclose. cbn.
  rewrite !bool_decide_eq_false_2 by (by intros []). cbn.
  destruct (negb _ && bool_decide _); [done|]. rewrite Hnow. cbn.
  by destruct (datetime_ltb now dt_close && _).
Qed.

(** A live poll that returns [True]: the entry it took, the filter's
    verdict on its bar, and the feed afterwards. *)
Lemma load_live_true clk self new_bars self' new_bars' :
  live_bars (p self) = true ->
  _load clk self new_bars = (Ok RTrue, self', new_bars') ->
  exists e others dt_open,
    matching self new_bars = e :: others
    /\ is_bar_valid
         clk
         (set_last_bar_received (bool_decide (length (e :: others) = 1%nat))
                                self)
         (r_data (e_response e)) = Ok true
    /\ get_bar_open_date_time self (r_data (e_response e)) = Ok dt_open
    /\ datetime_ltb (dt_last_open self) dt_open = true
    /\ last_bar_received self' = bool_decide (length (e :: others) = 1%nat)
    /\ lines self' = Some (line_of self (r_data (e_response e)) dt_open)
    /\ dt_last_open self' = dt_open.
Proof.
  intros Hlive Hload.
  destruct (matching self new_bars) as [|e others] eqn:Hmatch.
  { by rewrite load_live_none in Hload. }
  exists e, others.
  destruct (load_live_outcomes _ _ _ _ _ _ _ _ Hlive Hmatch Hload)
    as [[? _]|(dt_open & _ & Hopen & Hlt & ->)]; [done|].
  exists dt_open. split; [done|]. split.
  - destruct (load_live_claim clk _ _ _ _ Hlive Hmatch)
      as (before & after & _ & _ & _ & Hstep).
    cbn zeta in Hstep. rewrite Hstep in Hload.
    by destruct (is_bar_valid _ _ _) as [[|]|].
  - split_and!; try done; cbn zeta; by repeat case_match.
Qed.

(** X7. What a poll that returns [True] in live mode has emitted: the bar
    of the entry of its own subscription that arrived first, which the
    filter accepted at this poll and which opens after every bar emitted
    before; [dt_last_open] is then the open time of that bar. A live feed
    never emits a bar of another subscription, a bar the filter rejects,
    or a bar that does not open later than the last one. *)
Theorem load_emits_claimed_bar clk self new_bars self' new_bars' :
  islive self = true ->
  _load clk self new_bars = (Ok RTrue, self', new_bars') ->
  exists e dt_open,
    head (matching self new_bars) = Some e
    /\ e ∈ new_bars
    /\ e_provider_name e = provider_name self
    /\ Some (r_guid (e_response e)) = guid self
    /\ is_bar_valid
         clk (set_last_bar_received (last_bar_received self') self)
         (r_data (e_response e)) = Ok true
    /\ get_bar_open_date_time self (r_data (e_response e)) = Ok dt_open
    /\ datetime_ltb (dt_last_open self) dt_open = true
    /\ lines self' = Some (line_of self (r_data (e_response e)) dt_open)
    /\ dt_last_open self' = dt_open.
Proof.
  intros Hlive Hload.
  destruct (load_live_true _ _ _ _ _ Hlive Hload)
    as (e & others & dt_open & Hmatch & Hvalid & Hopen & Hlt & Hlast
        & Hlines & Hdt).
  exists e, dt_open. rewrite Hlast, Hmatch.
  assert (e ∈ matching self new_bars) as Hin by (rewrite Hmatch; left).
  apply list_elem_of_filter in Hin as [[Hname Hguid] Hin].
  by split_and!.
Qed.

(** What a poll never changes. *)
Lemma load_identity clk self new_bars r self' new_bars' :
  _load clk self new_bars = (r, self', new_bars') ->
  p self' = p self
  /\ provider_name self' = provider_name self
  /\ exchange self' = exchange self
  /\ symbol self' = symbol self
  /\ guid self' = guid self.
Proof.
  intros Hload. destruct (live_bars (p self)) eqn:Hlive.
  - destruct (matching self new_bars) as [|e others] eqn:Hmatch.
    + rewrite load_live_none in Hload by done. by simplify_eq.
    + destruct (load_live_outcomes _ _ _ _ _ _ _ _ Hlive Hmatch Hload)
        as [[_ ->]|(dt_open & _ & _ & _ & ->)]; [done|].
      cbn zeta. by repeat case_match.
  - destruct (history_bars self) as [|bar rest] eqn:Hbars.
    + rewrite load_history_empty in Hload by done. by simplify_eq.
    + rewrite (load_history_head _ _ _ bar rest) in Hload by done.
      injection Hload as Hload <-.
      by apply write_lines_cases in Hload
          as [(? & _ & -> & ->)|(? & _ & -> & ->)].
Qed.

(** X8. What a poll can return, by mode. A historical poll never returns
    [None] and leaves the store alone; it returns [False] exactly when no
    history is left, and that is the only time it hands a status over,
    [DISCONNECTED]. A live poll never returns [False], never touches the
    history, and hands over at most one status, [LIVE] or [DELAYED],
    never [DISCONNECTED]. *)
Theorem load_returns_by_mode clk self new_bars r self' new_bars' :
  _load clk self new_bars = (r, self', new_bars') ->
  (islive self = false ->
   r <> Ok RNone
   /\ new_bars' = new_bars
   /\ (r = Ok RFalse <-> history_bars self = [])
   /\ sent self'
      = sent self ++ match r with Ok RFalse => [DISCONNECTED] | _ => [] end)
  /\ (islive self = true ->
      r <> Ok RFalse
      /\ history_bars self' = history_bars self
      /\ exists handed,
          sent self' = sent self ++ handed
          /\ (handed = [] \/ handed = [LIVE] \/ handed = [DELAYED])).
Proof.
  intros Hload. unfold islive. split; intros Hlive.
  - destruct (history_bars self) as [|bar rest] eqn:Hbars.
    + rewrite load_history_empty in Hload by done. by simplify_eq.
    + rewrite (load_history_head _ _ _ bar rest) in Hload by done.
      injection Hload as Hload <-.
      apply write_lines_cases in Hload
          as [(? & _ & -> & ->)|(? & _ & -> & ->)];
        rewrite app_nil_r; by split_and!.
  - destruct (matching self new_bars) as [|e others] eqn:Hmatch.
    + rewrite load_live_none in Hload by done. simplify_eq.
      split_and!; try done. exists []. rewrite app_nil_r. by split; [|left].
    + destruct (load_live_outcomes _ _ _ _ _ _ _ _ Hlive Hmatch Hload)
        as [[Hr ->]|(dt_open & -> & _ & _ & ->)].
      * split_and!; try done.
        -- intros ->.
           destruct (load_live_claim clk _ _ _ _ Hlive Hmatch)
             as (before & after & _ & _ & _ & Hstep).
           cbn zeta in Hstep. rewrite Hstep in Hload.
           repeat case_match; simplify_eq; try done;
             match goal with
             | Hw : write_lines _ _ = _ |- _ =>
                 by apply write_lines_cases in Hw
                     as [(? & _ & ? & _)|(? & _ & ? & _)]
             end.
        -- exists []. rewrite app_nil_r. by split; [|left].
      * split; [done|]. cbn zeta.
        destruct (bool_decide (length (e :: others) = 1%nat)),
          (live_mode self) eqn:Hmode; cbn; rewrite ?Hmode; cbn;
          (split; [done|]).
        -- exists []. rewrite app_nil_r. by split; [|left].
        -- exists [LIVE]. by split; [|right; left].
        -- exists [DELAYED]. by split; [|right; right].
        -- exists []. rewrite app_nil_r. by split; [|left].
Qed.

(** X9. A poll of one feed leaves the entries of every other subscription
    in the store as they were, in the order they were: a feed with another
    provider name or another handle finds the same entries before and
    after. *)
Theorem load_leaves_other_feeds clk self other new_bars r self' new_bars' :
  _load clk self new_bars = (r, self', new_bars') ->
  provider_name other <> provider_name self \/ guid other <> guid self ->
  matching other new_bars' = matching other new_bars.
Proof.
  intros Hload Hother. destruct (live_bars (p self)) eqn:Hlive.
  - destruct (matching self new_bars) as [|e others] eqn:Hmatch.
    + rewrite load_live_none in Hload by done. by simplify_eq.
    + destruct (load_live_taken _ _ _ _ _ _ _ _ Hlive Hmatch Hload)
        as (before & after & -> & -> & _).
      assert (e ∈ matching self (before ++ e :: after)) as Hin
          by (rewrite Hmatch; left).
      apply list_elem_of_filter in Hin as [[Hname Hguid] _].
      unfold matching. rewrite !filter_app, filter_cons.
      rewrite decide_False; [done|]. intros [Hname' Hguid'].
      destruct Hother as [Hother|Hother]; apply Hother; congruence.
  - destruct (history_bars self) as [|bar rest] eqn:Hbars.
    + rewrite load_history_empty in Hload by done. by simplify_eq.
    + rewrite (load_history_head _ _ _ bar rest) in Hload by done.
      by injection Hload as _ <-.
Qed.

End Polls.

(** The live feed keeps the bar at [t5] at noon of the day after. *)
Lemma default_session_filter_witness :
  is_bar_valid Example.noon Example.live_feed (Example.bar_at Example.t5)
  = Ok true.
Proof.
  rewrite (default_session_filter
             Example.noon Example.live_feed (Example.bar_at Example.t5)
             (mk_datetime 2024 1 31 3 0 0 0) (mk_datetime 2024 1 31 3 1 0 0)
             (mk_datetime 2024 2 1 12 0 0 0));
    reflexivity.
Defined.

(** The first poll of [two_pending] emits the bar at [t5], which opens at
    03:00 Moscow time. *)
Lemma load_emits_claimed_bar_witness :
  exists e,
    head (matching Example.live_feed Example.two_pending) = Some e
    /\ dt_last_open
         (_load Example.noon Example.live_feed Example.two_pending).1.2
       = mk_datetime 2024 1 31 3 0 0 0.
Proof.
  destruct (_load Example.noon Example.live_feed Example.two_pending)
    as [[r self'] new_bars'] eqn:Hload.
  assert (r = Ok RTrue) as -> by (vm_compute in Hload; congruence).
  destruct (load_emits_claimed_bar Example.noon Example.live_feed
                                   _ _ _ eq_refl Hload)
    as (e & dt_open & Hhead & _ & _ & _ & _ & Hopen & _ & _ & Hdt).
  exists e. split; [exact Hhead|]. cbn [fst snd]. rewrite Hdt.
  vm_compute in Hhead. injection Hhead as <-.
  vm_compute in Hopen. by injection Hopen as <-.
Defined.

(** A historical feed with nothing left returns [False] and hands
    [DISCONNECTED] over. *)
Lemma load_returns_by_mode_witness :
  sent (_load Example.noon Example.history_feed Example.two_pending).1.2
  = [DISCONNECTED]
  /\ (_load Example.noon Example.history_feed Example.two_pending).2
     = Example.two_pending.
Proof.
  destruct (_load Example.noon Example.history_feed Example.two_pending)
    as [[r self'] new_bars'] eqn:Hload.
  destruct (load_returns_by_mode _ _ _ _ _ _ Hload) as [Hhistory _].
  destruct (Hhistory eq_refl) as (_ & -> & Hfalse & Hsent).
  cbn [fst snd]. rewrite Hsent, (proj2 Hfalse eq_refl). by split.
Defined.

(** The poll of the feed with handle ["H"] leaves the entry of the
    subscription ["X"] in the store. *)
Lemma load_leaves_other_feeds_witness :
  matching (set_guid (Some "X"%string) Example.live_feed)
           (_load Example.noon Example.live_feed Example.two_pending).2
  = [Example.entry "alor" "X" (Example.bar_at Example.t5)].
Proof.
  destruct (_load Example.noon Example.live_feed Example.two_pending)
    as [[r self'] new_bars'] eqn:Hload.
  cbn [snd].
  rewrite (load_leaves_other_feeds
             Example.noon Example.live_feed
             (set_guid (Some "X"%string) Example.live_feed) _ _ _ _ Hload).
  - reflexivity.
  - right. discriminate.
Defined.

(** ** The statuses of a live feed *)

Section LiveRuns.

Context {Price : Type} `{EqDecision Price} {provider : Provider Price}.
Implicit Types (self : Data Price) (bar : Bar Price) (clk : Clock).
Implicit Types (new_bars : list (Entry Price)) (ticks : list (Tick Price)).

(** A live poll hands a status over only when it changes [live_mode]. *)
Lemma load_live_handed clk self new_bars r self' new_bars' :
  live_bars (p self) = true ->
  _load clk self new_bars = (r, self', new_bars') ->
  (sent self' = sent self /\ live_mode self' = live_mode self)
  \/ (live_mode self = false /\ live_mode self' = true
      /\ sent self' = sent self ++ [LIVE])
  \/ (live_mode self = true /\ live_mode self' = false
      /\ sent self' = sent self ++ [DELAYED]).
Proof.
  intros Hlive Hload.
  destruct (matching self new_bars) as [|e others] eqn:Hmatch.
  { rewrite load_live_none in Hload by done. simplify_eq. by left. }
  destruct (load_live_outcomes _ _ _ _ _ _ _ _ Hlive Hmatch Hload)
    as [[Hr ->]|(dt_open & -> & _ & _ & ->)]; [by left|].
  cbn zeta.
  destruct (bool_decide (length (e :: others) = 1%nat)),
    (live_mode self) eqn:Hmode; cbn; rewrite ?Hmode; cbn; auto.
Qed.

(** A live poll leaves the history alone. *)
Lemma load_live_history clk self new_bars r self' new_bars' :
  live_bars (p self) = true ->
  _load clk self new_bars = (r, self', new_bars') ->
  history_bars self' = history_bars self.
Proof.
  intros Hlive Hload.
  destruct (matching self new_bars) as [|e others] eqn:Hmatch.
  { rewrite load_live_none in Hload by done. by simplify_eq. }
  destruct (load_live_outcomes _ _ _ _ _ _ _ _ Hlive Hmatch Hload)
    as [[Hr ->]|(dt_open & -> & _ & _ & ->)]; [done|].
  cbn zeta. by repeat case_match.
Qed.

(** The statuses a live run hands over, one after the other. *)
Lemma run_live_handed ticks :
  forall self new_bars,
    live_bars (p self) = true ->
    exists handed,
      sent (final self (run ticks self new_bars)) = sent self ++ handed
      /\ (forall (i : nat) s,
             handed !! i = Some s ->
             s = if xorb (live_mode self) (Nat.even i) then LIVE
                 else DELAYED)
      /\ live_mode (final self (run ticks self new_bars))
         = xorb (live_mode self) (Nat.odd (length handed)).
Proof.
  induction ticks as [|t ticks IH]; intros self new_bars Hlive.
  { exists []. cbn. rewrite app_nil_r, xorb_false_r. by split_and!. }
  destruct (_load (tick_clock t) self (tick_new_bars t new_bars))
    as [[r self'] new_bars'] eqn:Hload.
  rewrite (run_cons _ _ _ _ _ _ _ Hload), final_cons. cbn [snd].
  assert (live_bars (p self') = true) as Hlive'.
  { by destruct (load_identity _ _ _ _ _ _ Hload) as (-> & _). }
  destruct (IH self' new_bars' Hlive') as (handed & Hsent & Heach & Hmode).
  destruct (load_live_handed _ _ _ _ _ _ Hlive Hload)
    as [[Hs Hm]|[(Hm & Hm' & Hs)|(Hm & Hm' & Hs)]].
  - exists handed. rewrite Hsent, Hmode, Hs, Hm. split_and!; try done.
    intros i s Hi. rewrite <- Hm. by apply Heach.
  - exists (LIVE :: handed). rewrite Hsent, Hmode, Hs, Hm, Hm', <- app_assoc.
    split_and!; try done.
    + intros [|i] s Hi; cbn in Hi; [by simplify_eq|].
      rewrite (Heach i s Hi), Hm', Nat.even_succ, <- Nat.negb_even.
      by destruct (Nat.even i).
    + cbn [length]. rewrite Nat.odd_succ, <- Nat.negb_odd.
      by destruct (Nat.odd _).
  - exists (DELAYED :: handed).
    rewrite Hsent, Hmode, Hs, Hm, Hm', <- app_assoc.
    split_and!; try done.
    + intros [|i] s Hi; cbn in Hi; [by simplify_eq|].
      rewrite (Heach i s Hi), Hm', Nat.even_succ, <- Nat.negb_even.
      by destruct (Nat.even i).
    + cbn [length]. rewrite Nat.odd_succ, <- Nat.negb_odd.
      by destruct (Nat.odd _).
Qed.

(** X10. Over any run of polls of a live feed, the statuses handed over
    alternate: [LIVE] is handed over only while the feed is in delayed
    mode and [DELAYED] only while it is in live mode, so no status is
    handed over twice in a row, the first one is [LIVE] for a feed in
    delayed mode, and [live_mode] at the end says which came last.
    [CONNECTED] and [DISCONNECTED] are never handed over by a poll of a
    live feed. *)
Theorem live_statuses_alternate ticks self new_bars :
  islive self = true ->
  exists handed,
    sent (final self (run ticks self new_bars)) = sent self ++ handed
    /\ (forall (i : nat) s,
           handed !! i = Some s ->
           s = if xorb (live_mode self) (Nat.even i) then LIVE else DELAYED)
    /\ (forall (i : nat) s s',
           handed !! i = Some s -> handed !! S i = Some s' -> s <> s')
    /\ (CONNECTED ∉ handed)
    /\ (DISCONNECTED ∉ handed)
    /\ live_mode (final self (run ticks self new_bars))
       = match last handed with
         | Some s => bool_decide (s = LIVE)
         | None => live_mode self
         end.
Proof.
  intros Hlive.
  destruct (run_live_handed ticks self new_bars Hlive)
    as (handed & Hsent & Heach & Hmode).
  exists handed. split_and!; try done.
  - intros i s s' Hi Hi'. rewrite (Heach _ _ Hi), (Heach _ _ Hi').
    rewrite Nat.even_succ, <- Nat.negb_even.
    by destruct (live_mode self), (Nat.even i).
  - intros [i Hi]%list_elem_of_lookup. apply Heach in Hi.
    by destruct (xorb (live_mode self) (Nat.even i)).
  - intros [i Hi]%list_elem_of_lookup. apply Heach in Hi.
    by destruct (xorb (live_mode self) (Nat.even i)).
  - rewrite Hmode. rewrite last_lookup.
    destruct handed as [|s0 handed]; [by rewrite xorb_false_r|].
    cbn [length Nat.pred].
    destruct ((s0 :: handed) !! length handed) as [s|] eqn:Hlast.
    + rewrite (Heach _ _ Hlast), Nat.odd_succ.
      by destruct (live_mode self), (Nat.even (length handed)).
    + apply lookup_ge_None in Hlast. cbn in Hlast. lia.
Qed.

(** X11. The life of a live feed. [start] of a feed that was just made
    returns with the handle stored, no history kept and the statuses
    [DELAYED], [CONNECTED] handed over, whatever the provider holds. The
    polls then hand over [LIVE] and [DELAYED] in turn, [LIVE] first, and
    [stop] hands [DISCONNECTED] over, once and last. *)
Theorem live_lifetime params name exch sym clocks fetched new_guid :
  live_bars params = true ->
  let started := start clocks fetched new_guid (init params name exch sym) in
  started.1 = Ok tt
  /\ guid started.2 = Some new_guid
  /\ history_bars started.2 = []
  /\ sent started.2 = [DELAYED; CONNECTED]
  /\ forall ticks new_bars,
      let stopped := stop (final started.2 (run ticks started.2 new_bars)) in
      exists handed,
        sent stopped = [DELAYED; CONNECTED] ++ handed ++ [DISCONNECTED]
        /\ (forall (i : nat) s,
               handed !! i = Some s ->
               s = if Nat.even i then LIVE else DELAYED)
        /\ history_bars stopped = []
        /\ guid stopped = Some new_guid.
Proof.
  intros Hlive. unfold start. cbn [p put_notification init].
  rewrite Hlive. cbn [negb fst snd].
  split_and!; try done.
  intros ticks new_bars.
  match goal with
  | |- context [run ticks ?d new_bars] => set (started := d)
  end.
  assert (live_bars (p started) = true) as Hlive' by done.
  destruct (run_live_handed ticks started new_bars Hlive')
    as (handed & Hsent & Heach & _).
  assert (guid (final started (run ticks started new_bars)) = Some new_guid
          /\ history_bars (final started (run ticks started new_bars)) = [])
    as [Hguid Hbars].
  { clear Hsent Heach.
    assert (guid started = Some new_guid /\ history_bars started = [])
      as Hstart by done.
    clearbody started. revert started new_bars Hlive' Hstart.
    induction ticks as [|t ticks IH]; intros started new_bars Hlive' Hstart;
      [done|].
    destruct (_load (tick_clock t) started (tick_new_bars t new_bars))
      as [[r self'] new_bars'] eqn:Hload.
    rewrite (run_cons _ _ _ _ _ _ _ Hload), final_cons. cbn [snd].
    destruct (load_identity _ _ _ _ _ _ Hload) as (Hp & _ & _ & _ & Hg).
    pose proof (load_live_history _ _ _ _ _ _ Hlive' Hload) as Hh.
    apply IH; [by rewrite Hp|]. by rewrite Hg, Hh. }
  exists handed. unfold stop. rewrite Hguid. cbn.
  rewrite Hsent, Hguid, Hbars. by split_and!.
Qed.

End LiveRuns.

(** Two polls of the live feed on [two_pending]: the statuses handed
    over hold no [CONNECTED]. *)
Lemma live_statuses_alternate_witness :
  exists handed,
    sent (final Example.live_feed
                (run [Example.tick; Example.tick] Example.live_feed
                     Example.two_pending))
    = sent Example.live_feed ++ handed
    /\ CONNECTED ∉ handed.
Proof.
  destruct (live_statuses_alternate [Example.tick; Example.tick]
                                    Example.live_feed Example.two_pending
                                    eq_refl)
    as (handed & Hsent & _ & _ & Hconnected & _).
  exists handed. split; [exact Hsent | exact Hconnected].
Defined.

(** [start] of a live feed on minute bars. *)
Lemma live_lifetime_witness :
  sent (start (fun _ => Example.noon) [] "H"
              (init (Example.params Minutes false true)
                    "alor" "MOEX" "SBER")).2
  = [DELAYED; CONNECTED].
Proof.
  destruct (live_lifetime (Example.params Minutes false true)
                          "alor" "MOEX" "SBER" (fun _ => Example.noon)
                          (@nil (Bar Z)) "H" eq_refl)
    as (_ & _ & _ & Hsent & _).
  exact Hsent.
Defined.

(** ** What the producers put in the store, and what the feed takes *)

Section Producing.

Context {Price : Type} `{EqDecision Price} {provider : Provider Price}.
Implicit Types (self : Data Price) (bar : Bar Price) (clk : Clock).
Implicit Types (new_bars : list (Entry Price)) (e : Entry Price).
Implicit Types (ticks : list (Tick Price)) (response : Response Price).

(** The entries a feed selects depend on its provider name and its handle
    only. *)
Lemma matching_identity self self' new_bars :
  provider_name self' = provider_name self ->
  guid self' = guid self ->
  matching self' new_bars = matching self new_bars.
Proof. unfold matching. by intros -> ->. Qed.

(** An entry at the end of the store that is the only one of the feed's
    subscription is found there and nowhere else. *)
Lemma matching_snoc_split self new_bars e before after :
  matching self [e] = [e] ->
  matching self new_bars = [] ->
  new_bars ++ [e] = before ++ e :: after ->
  matching self before = [] ->
  before = new_bars /\ after = [].
Proof.
  intros He Hnone Heq Hbefore.
  destruct after as [|x after _] using rev_ind.
  { by apply app_inj_tail in Heq as [-> _]. }
  exfalso.
  change (before ++ e :: after ++ [x])
    with (before ++ (e :: after) ++ [x]) in Heq.
  rewrite app_assoc in Heq. apply app_inj_tail in Heq as [-> _].
  unfold matching in Hnone, He.
  rewrite filter_app, filter_cons in Hnone.
  rewrite filter_cons in He.
  case_decide; [by destruct (filter _ before)|].
  cbn in He. discriminate.
Qed.

(** X12. From the provider's callback to the feed. When the handler that
    [Store.start] installed for the feed's provider receives a response
    that carries the feed's handle, and the store held nothing else for
    this subscription, the next poll of the live feed finds that entry,
    takes it out again, leaving the store as it was before the callback,
    and sets [last_bar_received]; if the poll returns [True], the bar of
    the response is what it emitted. A response for another provider name
    or another handle is not seen by the feed. *)
Theorem on_new_bar_then_load clk self new_bars n response r self' new_bars' :
  islive self = true ->
  matching self new_bars = [] ->
  _load clk self (OnNewBar n response new_bars) = (r, self', new_bars') ->
  if decide (n = provider_name self /\ Some (r_guid response) = guid self)
  then
    new_bars' = new_bars
    /\ last_bar_received self' = true
    /\ (r = Ok RTrue ->
        exists dt_open,
          get_bar_open_date_time self (r_data response) = Ok dt_open
          /\ lines self' = Some (line_of self (r_data response) dt_open)
          /\ dt_last_open self' = dt_open)
  else
    r = Ok RNone
    /\ self' = self
    /\ new_bars' = OnNewBar n response new_bars.
Proof.
  intros Hlive Hnone Hload. unfold islive in Hlive.
  set (e := mk_Entry n response).
  assert (matching self (OnNewBar n response new_bars)
          = if decide (n = provider_name self
                       /\ Some (r_guid response) = guid self)
            then [e] else []) as Hmatch.
  { unfold OnNewBar, matching in *.
    rewrite filter_app, Hnone, filter_cons. cbn.
    by repeat case_decide. }
  case_decide as Hmine.
  - assert (matching self [e] = [e]) as He.
    { unfold matching. rewrite filter_cons. cbn. by rewrite decide_True. }
    destruct (load_live_taken _ _ _ _ _ _ _ _ Hlive Hmatch Hload)
      as (before & after & Hnew & -> & Hbefore & _ & Hlast).
    destruct (matching_snoc_split _ _ _ _ _ He Hnone Hnew Hbefore)
      as [-> ->].
    rewrite app_nil_r. split; [done|]. split; [done|]. intros ->.
    destruct (load_live_true _ _ _ _ _ Hlive Hload)
      as (e' & others & dt_open & Hmatch' & _ & Hopen & _ & _ & Hlines & Hdt).
    rewrite Hmatch in Hmatch'. injection Hmatch' as <- <-.
    by exists dt_open.
  - rewrite load_live_none in Hload by done. by simplify_eq.
Qed.

(** One live poll with nothing arriving takes the first entry of the
    feed's subscription, if there is one, and no other entry. *)
Lemma load_live_fifo clk self new_bars r self' new_bars' :
  live_bars (p self) = true ->
  _load clk self new_bars = (r, self', new_bars') ->
  matching self new_bars' = drop 1 (matching self new_bars)
  /\ forall other : Data Price,
      provider_name other <> provider_name self \/ guid other <> guid self ->
      matching other new_bars' = matching other new_bars.
Proof.
  intros Hlive Hload.
  destruct (matching self new_bars) as [|e others] eqn:Hmatch.
  { rewrite load_live_none in Hload by done. simplify_eq.
    by rewrite Hmatch. }
  destruct (load_live_taken _ _ _ _ _ _ _ _ Hlive Hmatch Hload)
    as (before & after & -> & -> & Hbefore & Hrest & _).
  split; [done|]. intros other Hother.
  assert (e ∈ matching self (before ++ e :: after)) as Hin
      by (rewrite Hmatch; left).
  apply list_elem_of_filter in Hin as [[Hname Hguid] _].
  unfold matching. rewrite !filter_app, filter_cons.
  rewrite decide_False; [done|]. intros [Hname' Hguid'].
  destruct Hother as [Hother|Hother]; apply Hother; congruence.
Qed.

(** X13. First in, first out. Over a run of [k] polls of a live feed
    during which nothing else touches the store, the feed takes the first
    [k] entries of its subscription out of the store, in the order they
    arrived (all of them if there are fewer), whether or not their bars
    are emitted; the entries of every other subscription stay. *)
Theorem live_run_takes_in_order ticks self new_bars :
  islive self = true ->
  Forall (fun t => forall stored, tick_new_bars t stored = stored) ticks ->
  matching self (run_new_bars ticks self new_bars)
  = drop (length ticks) (matching self new_bars)
  /\ forall other : Data Price,
      provider_name other <> provider_name self \/ guid other <> guid self ->
      matching other (run_new_bars ticks self new_bars)
      = matching other new_bars.
Proof.
  unfold islive. revert self new_bars.
  induction ticks as [|t ticks IH]; intros self new_bars Hlive Hquiet.
  { done. }
  apply Forall_cons in Hquiet as [Ht Hquiet]. cbn [run_new_bars length].
  rewrite Ht.
  destruct (_load (tick_clock t) self new_bars)
    as [[r self'] new_bars'] eqn:Hload. cbn [fst snd].
  destruct (load_identity _ _ _ _ _ _ Hload) as (Hp & Hname & _ & _ & Hguid).
  destruct (load_live_fifo _ _ _ _ _ _ Hlive Hload) as [Hmine Hothers].
  destruct (IH self' new_bars') as [IHmine IHothers];
    [by rewrite Hp|done|].
  split.
  - rewrite <- (matching_identity self self' (run_new_bars _ _ _)) by done.
    rewrite IHmine, (matching_identity self self') by done.
    by rewrite Hmine, drop_drop.
  - intros other Hother. rewrite IHothers by (by rewrite Hname, Hguid).
    by apply Hothers.
Qed.

End Producing.

(** A bar for the feed's handle arrives in a store that holds an entry
    of another subscription: the poll leaves that entry alone. *)
Lemma on_new_bar_then_load_witness :
  (_load Example.noon Example.live_feed
         (OnNewBar "alor" (mk_Response "H" (Example.bar_at Example.t5))
                   [Example.entry "alor" "X" (Example.bar_at Example.t5)])).2
  = [Example.entry "alor" "X" (Example.bar_at Example.t5)].
Proof.
  destruct (_load _ _ _) as [[r self'] new_bars'] eqn:Hload.
  pose proof (on_new_bar_then_load
                Example.noon Example.live_feed
                [Example.entry "alor" "X" (Example.bar_at Example.t5)]
                "alor" (mk_Response "H" (Example.bar_at Example.t5))
                r self' new_bars' eq_refl eq_refl Hload) as Hstep.
  rewrite decide_True in Hstep by (split; reflexivity).
  by destruct Hstep as [-> _].
Defined.

(** Two polls of [two_pending] take both entries of the handle ["H"]. *)
Lemma live_run_takes_in_order_witness :
  matching Example.live_feed
           (run_new_bars [Example.tick; Example.tick] Example.live_feed
                         Example.two_pending)
  = [].
Proof.
  destruct (live_run_takes_in_order [Example.tick; Example.tick]
                                    Example.live_feed Example.two_pending)
    as [Hmine _]; [reflexivity | by repeat constructor |].
  rewrite Hmine. reflexivity.
Defined.

(** ** The schedule thread *)

Section Schedule.

Context {Price : Type} `{EqDecision Price} {provider : Provider Price}.
Implicit Types (self : Data Price) (new_bars : list (Entry Price)).
Implicit Types (rounds before after : list (Round Price)).

(** The loop of [stream_bars] over turns none of which sees the exit
    event. *)
Lemma stream_rounds_app g before after self new_bars :
  Forall (fun round => exit_event_set round = false) before ->
  stream_rounds g (before ++ after) self new_bars
  = stream_rounds
      g after self
      (new_bars
         ++ omap (fun round =>
                    match history round with
                    | Some (bar :: _) =>
                        Some (mk_Entry (provider_name self)
                                       (mk_Response g bar))
                    | _ => None
                    end) before).
Proof.
  intros Hquiet. revert new_bars.
  induction Hquiet as [|round before Hexit _ IH]; intros new_bars.
  { by rewrite app_nil_r. }
  cbn. rewrite Hexit.
  destruct (history round) as [[|bar bars]|]; rewrite IH; [done| |done].
  by rewrite <- app_assoc.
Qed.

(** X14. The thread that polls by schedule. On month or year bars it
    ends with [NotImplementedError] before its first wait, whatever the
    turns would bring. Otherwise it only appends to the store: for every
    turn before the first one that sees the exit event, the first bar of
    the answer if the answer holds one, under the feed's provider name and
    handle, in the order of the turns; answers that are empty add nothing,
    bars after the first of an answer are dropped, and from the turn that
    sees the exit event on nothing is added. Every entry it adds is one
    the feed selects at a poll. *)
Theorem stream_bars_appends g before after self new_bars :
  let fresh :=
    omap (fun round =>
            match history round with
            | Some (bar :: _) =>
                Some (mk_Entry (provider_name self) (mk_Response g bar))
            | _ => None
            end) before in
  Forall (fun round => exit_event_set round = false) before ->
  (forall round, head after = Some round -> exit_event_set round = true) ->
  stream_bars g (before ++ after) self new_bars
  = (if decide (timeframe (p self) = Months \/ timeframe (p self) = Years)
     then Raise NotImplementedError
     else
       _ ← Store.timeframe_to_timedelta (timeframe (p self))
                                        (compression (p self));
       Ok (bool_decide (after <> []), new_bars ++ fresh))
  /\ (guid self = Some g ->
      matching self (new_bars ++ fresh) = matching self new_bars ++ fresh).
Proof.
  intros fresh Hquiet Hexit. split.
  - unfold stream_bars. rewrite stream_rounds_app by done. fold fresh.
    assert (stream_rounds g after self (new_bars ++ fresh)
            = (bool_decide (after <> []), new_bars ++ fresh)) as ->.
    { destruct after as [|round after]; [done|].
      cbn. by rewrite (Hexit round eq_refl). }
    unfold Store.timeframe_to_timedelta.
    destruct (timeframe (p self)); cbn; try done;
      case_decide as Hcase; try done; exfalso; intuition discriminate.
  - intros Hguid. unfold matching. rewrite filter_app. f_equal.
    subst fresh. clear Hquiet.
    induction before as [|round before IH]; [done|].
    cbn. destruct (history round) as [[|bar bars]|]; try done.
    rewrite filter_cons. cbn. rewrite decide_True by done. by rewrite IH.
Qed.

End Schedule.

(** A minute feed with handle ["H"]: an empty answer, an answer with two
    bars, then the exit event. One entry is added, for the first bar. *)
Lemma stream_bars_appends_witness :
  stream_bars "H"
              ([@mk_Round Z false (Some []);
                @mk_Round Z false
                         (Some [Example.bar_at Example.t5;
                                Example.bar_at Example.t6])]
                 ++ [@mk_Round Z true None])
              Example.live_feed []
  = Ok (true, [Example.entry "alor" "H" (Example.bar_at Example.t5)]).
Proof.
  destruct (stream_bars_appends
              "H"
              [@mk_Round Z false (Some []);
               @mk_Round Z false
                        (Some [Example.bar_at Example.t5;
                               Example.bar_at Example.t6])]
              [@mk_Round Z true None] Example.live_feed [])
    as [Hstream _].
  - by repeat constructor.
  - by intros round [= <-].
  - rewrite Hstream. reflexivity.
Defined.

(** ** Making the store and picking a provider *)

Section Dicts.

Context {V : Type}.
Implicit Types (d : Singleton.dict V) (k : string) (v : V).

Lemma dict_get_set k k' v d :
  Singleton.dict_get k (Singleton.dict_set k' v d)
  = if decide (k' = k) then Some v else Singleton.dict_get k d.
Proof.
  induction d as [|[k0 v0] d IH]; cbn; [done|].
  destruct (decide (k0 = k')) as [->|Hne]; cbn.
  - by repeat case_decide.
  - rewrite IH. repeat case_decide; congruence.
Qed.

(** Setting a key never changes which key comes first, unless the dict
    was empty. *)
Lemma dict_set_head k v d :
  fst <$> head (Singleton.dict_set k v d)
  = Some (match d with [] => k | (k0, _) :: _ => k0 end).
Proof. destruct d as [|[k0 v0] d]; cbn; [done|]. case_decide; by subst. Qed.

Lemma dict_get_head k v d :
  head d = Some (k, v) -> Singleton.dict_get k d = Some v.
Proof.
  destruct d as [|[k0 v0] d]; [done|]. intros [= -> ->]. cbn.
  by rewrite decide_True.
Qed.

End Dicts.

(** The loop of [__init__] when it ends without an exception. *)
Lemma add_providers_spec (configs : list Singleton.ProviderConfig) :
  forall d d',
    Singleton.add_providers configs d = inr d' ->
    Forall (fun cfg => is_Some (Singleton.config_client cfg)) configs
    /\ (forall name,
           Singleton.dict_get name d'
           = match Singleton.last_named name configs with
             | Some cfg => Singleton.config_client cfg
             | None => Singleton.dict_get name d
             end)
    /\ fst <$> head d'
       = match d with
         | [] => Singleton.config_name <$> head configs
         | (k, _) :: _ => Some k
         end.
Proof.
  induction configs as [|cfg rest IH]; intros d d' Hadd; cbn in Hadd.
  { simplify_eq. split; [constructor|]. split; [done|].
    by destruct d' as [|[k v] d']. }
  destruct (Singleton.cfg_username cfg) as [username|] eqn:Huser; [|done].
  destruct (Singleton.cfg_refresh_token cfg) as [token|] eqn:Htoken; [|done].
  assert (Singleton.config_client cfg
          = Some (Singleton.mk_Alor
                    username token
                    (default false (Singleton.cfg_demo cfg)))) as Hclient.
  { unfold Singleton.config_client. by rewrite Huser, Htoken. }
  apply IH in Hadd as (Hall & Hget & Hhead).
  split; [constructor; [by rewrite Hclient|done]|]. split.
  - intros name. rewrite Hget, dict_get_set.
    unfold Singleton.last_named. rewrite filter_cons.
    change (default "default"%string (Singleton.cfg_provider_name cfg))
      with (Singleton.config_name cfg).
    case_decide; [|done]. rewrite last_cons.
    by destruct (last (filter _ rest)).
  - rewrite Hhead.
    pose proof (dict_set_head
                  (default "default"%string (Singleton.cfg_provider_name cfg))
                  (Singleton.mk_Alor username token
                                     (default false (Singleton.cfg_demo cfg)))
                  d) as Hfirst.
    destruct (Singleton.dict_set _ _ d) as [|[k0 v0] d0]; [done|].
    cbn in Hfirst. injection Hfirst as ->. by destruct d as [|[k1 v1] d].
Qed.

(** The loop of [__init__] over provider dicts that hold both
    credentials. *)
Lemma add_providers_complete (configs : list Singleton.ProviderConfig) :
  forall d,
    Forall (fun cfg => is_Some (Singleton.config_client cfg)) configs ->
    exists d',
      Singleton.add_providers configs d = inr d'
      /\ (d <> [] \/ configs <> [] -> d' <> []).
Proof.
  induction configs as [|cfg rest IH]; intros d Hall.
  { exists d. split; [done|]. by intros [?|?]. }
  apply Forall_cons in Hall as [[client Hclient] Hall]. cbn.
  unfold Singleton.config_client in Hclient.
  destruct (Singleton.cfg_username cfg) as [username|]; [|done].
  destruct (Singleton.cfg_refresh_token cfg) as [token|]; [|done].
  destruct (IH (Singleton.dict_set
                  (default "default"%string (Singleton.cfg_provider_name cfg))
                  (Singleton.mk_Alor username token
                                     (default false (Singleton.cfg_demo cfg)))
                  d) Hall) as (d' & Hadd & Hsome).
  exists d'. split; [done|]. intros _. apply Hsome. left.
  destruct d as [|[k0 v0] d]; cbn; [done|]. by case_decide.
Qed.

(** The loop of [__init__] up to the first provider dict that lacks a
    credential. *)
Lemma add_providers_incomplete
    (good : list Singleton.ProviderConfig) cfg rest :
  forall d,
    Forall (fun cfg => is_Some (Singleton.config_client cfg)) good ->
    Singleton.config_client cfg = None ->
    Singleton.add_providers (good ++ cfg :: rest) d
    = inl (Singleton.KeyError
             (match Singleton.cfg_username cfg with
              | None => "username"
              | Some _ => "refresh_token"
              end)).
Proof.
  induction good as [|cfg0 good IH]; intros d Hall Hnone.
  { cbn. unfold Singleton.config_client in Hnone.
    destruct (Singleton.cfg_username cfg); [|done].
    by destruct (Singleton.cfg_refresh_token cfg). }
  apply Forall_cons in Hall as [[client Hclient] Hall]. cbn.
  unfold Singleton.config_client in Hclient.
  destruct (Singleton.cfg_username cfg0) as [username|]; [|done].
  destruct (Singleton.cfg_refresh_token cfg0) as [token|]; [|done].
  by apply IH.
Qed.

(** X15. The store that [Store(providers=...)] builds. Every name given
    is found in [providers], under it the client made from the dict that
    was given LAST under that name (a dict without [provider_name] counts
    as named ["default"], one without [demo] as not demo); a name that was
    not given is not found. The default provider [provider] is the entry
    of the name of the FIRST dict, so it carries the credentials of the
    last dict that has the first one's name. *)
Theorem init_providers given store :
  Singleton.init given = inr store ->
  exists first configs,
    given = Some (first :: configs)
    /\ (forall name,
           Singleton.dict_get name (Singleton.providers store)
           = Singleton.last_named name (first :: configs)
               ≫= Singleton.config_client)
    /\ head (Singleton.providers store)
       = Some (Singleton.config_name first, Singleton.provider store)
    /\ Some (Singleton.provider store)
       = Singleton.last_named (Singleton.config_name first)
                              (first :: configs)
           ≫= Singleton.config_client.
Proof.
  unfold Singleton.init. destruct given as [configs|]; [|done].
  destruct (Singleton.add_providers configs []) as [err|d'] eqn:Hadd; [done|].
  destruct d' as [|[k0 a0] d']; [done|]. intros [= <-].
  destruct (add_providers_spec _ _ _ Hadd) as (_ & Hget & Hhead).
  destruct configs as [|first configs]; [done|].
  cbn in Hhead. injection Hhead as ->.
  assert (forall name,
             Singleton.dict_get name ((Singleton.config_name first, a0) :: d')
             = Singleton.last_named name (first :: configs)
                 ≫= Singleton.config_client) as Hlookup.
  { intros name. rewrite Hget.
    by destruct (Singleton.last_named name (first :: configs)). }
  exists first, configs. split_and!; try done.
  cbn [Singleton.provider]. rewrite <- Hlookup. cbn.
  by rewrite decide_True.
Qed.

(** X16. When [Store(...)] fails. It returns a store exactly when
    [providers] is a list that is not empty and each of its dicts holds
    [username] and [refresh_token]. Without [providers] it raises
    [TypeError]; with an empty list, [IndexError]; otherwise [KeyError]
    for the first dict that lacks a credential, naming [username] if that
    is missing and [refresh_token] if only that is. *)
Theorem init_errors given :
  ((exists store, Singleton.init given = inr store) <->
   exists configs,
     given = Some configs /\ configs <> []
     /\ Forall (fun cfg => is_Some (Singleton.config_client cfg)) configs)
  /\ (given = None -> Singleton.init given = inl Singleton.TypeError)
  /\ (given = Some [] -> Singleton.init given = inl Singleton.IndexError)
  /\ (forall good cfg rest,
         given = Some (good ++ cfg :: rest) ->
         Forall (fun cfg => is_Some (Singleton.config_client cfg)) good ->
         Singleton.config_client cfg = None ->
         Singleton.init given
         = inl (Singleton.KeyError
                  (match Singleton.cfg_username cfg with
                   | None => "username"
                   | Some _ => "refresh_token"
                   end))).
Proof.
  split_and!.
  - split.
    + intros [store Hinit]. unfold Singleton.init in Hinit.
      destruct given as [configs|]; [|done]. exists configs.
      destruct (Singleton.add_providers configs []) as [err|d'] eqn:Hadd;
        [done|].
      destruct (add_providers_spec _ _ _ Hadd) as (Hall & _ & _).
      split_and!; try done. intros ->. cbn in Hadd. by simplify_eq.
    + intros (configs & -> & Hsome & Hall).
      destruct (add_providers_complete configs [] Hall) as (d' & Hadd & Hd').
      unfold Singleton.init. rewrite Hadd.
      destruct d' as [|[k0 a0] d']; [|by eexists].
      by destruct Hd'; [right|].
  - by intros ->.
  - by intros ->.
  - intros good cfg rest -> Hall Hnone. unfold Singleton.init.
    by rewrite add_providers_incomplete.
Qed.

(** Once the class holds an instance, every call returns it. *)
Lemma calls_made {Args Inst : Type} (new : Args -> Singleton.error + Inst)
    (argss : list Args) (instance : Inst) :
  Singleton.calls new argss (Some instance)
  = (replicate (length argss) (inr instance), Some instance).
Proof.
  induction argss as [|args argss IH]; [done|].
  cbn. by rewrite IH.
Qed.

(** X17. The store is a singleton. Calls of the class that fail leave it
    without an instance, and each of them raises what its own arguments
    make the constructor raise. The first call whose arguments the
    constructor accepts makes the instance, and every later call returns
    that same instance without running the constructor: its arguments are
    ignored, also when the constructor would have raised on them. *)
Theorem singleton_calls {Args Inst : Type}
    (new : Args -> Singleton.error + Inst) (failed : list Args) :
  Forall (fun args => exists e, new args = inl e) failed ->
  Singleton.calls new failed None = (new <$> failed, None)
  /\ forall args instance later,
      new args = inr instance ->
      Singleton.calls new (failed ++ args :: later) None
      = ((new <$> failed) ++ replicate (S (length later)) (inr instance),
         Some instance).
Proof.
  intros Hfailed.
  induction Hfailed as [|args0 failed [e He] _ [IHnone IHmade]].
  { split; [done|]. intros args instance later Hnew.
    cbn [app Singleton.calls]. unfold Singleton.call. rewrite Hnew.
    cbn [fst snd]. by rewrite calls_made. }
  split.
  - cbn [Singleton.calls]. unfold Singleton.call. rewrite He.
    cbn [fst snd]. rewrite IHnone. cbn. by rewrite He.
  - intros args instance later Hnew.
    cbn [app Singleton.calls]. unfold Singleton.call. rewrite He.
    cbn [fst snd]. rewrite (IHmade args instance later Hnew). cbn.
    by rewrite He.
Qed.

(** X18. The provider a feed works with. A feed made without
    [provider_name], or with an empty one, gets the store's default
    provider, under the name that comes first in the store. A feed made
    with a name gets the client made from the last dict given under that
    name, and [KeyError] with that name if no dict was given under it. *)
Theorem select_provider_of_store given store p_provider_name :
  Singleton.init given = inr store ->
  match p_provider_name with
  | Some name =>
      if decide (name = ""%string)
      then exists first,
          head (Singleton.providers store)
          = Some (first, Singleton.provider store)
          /\ Singleton.select_provider p_provider_name store
             = inr (first, Singleton.provider store)
      else exists configs,
          given = Some configs
          /\ Singleton.select_provider p_provider_name store
             = match Singleton.last_named name configs
                       ≫= Singleton.config_client with
               | Some alor => inr (name, alor)
               | None => inl (Singleton.KeyError name)
               end
  | None =>
      exists first,
        head (Singleton.providers store)
        = Some (first, Singleton.provider store)
        /\ Singleton.select_provider p_provider_name store
           = inr (first, Singleton.provider store)
  end.
Proof.
  intros Hinit.
  assert (exists first,
             head (Singleton.providers store)
             = Some (first, Singleton.provider store)
             /\ Singleton.select_provider None store
                = inr (first, Singleton.provider store)
             /\ Singleton.select_provider (Some ""%string) store
                = inr (first, Singleton.provider store)) as Hdefault.
  { unfold Singleton.init in Hinit. destruct given as [configs|]; [|done].
    destruct (Singleton.add_providers configs []) as [err|d']; [done|].
    destruct d' as [|[k0 a0] d']; [done|]. injection Hinit as <-.
    exists k0. unfold Singleton.select_provider. cbn.
    by rewrite !decide_True by done. }
  destruct Hdefault as (first & Hhead & Hnone & Hempty).
  destruct p_provider_name as [name|]; [|by exists first].
  case_decide as Hname.
  - subst name. by exists first.
  - unfold Singleton.init in Hinit. destruct given as [configs|]; [|done].
    exists configs. split; [done|].
    destruct (Singleton.add_providers configs []) as [err|d'] eqn:Hadd;
      [done|].
    destruct (add_providers_spec _ _ _ Hadd) as (_ & Hget & _).
    destruct d' as [|[k0 a0] d']; [done|]. injection Hinit as <-.
    unfold Singleton.select_provider. rewrite decide_False by done.
    cbn [Singleton.providers]. rewrite Hget.
    by destruct (Singleton.last_named name configs).
Qed.

(** Two dicts under the name ["main"], then one without a name: the
    default provider carries the credentials of the second. *)
Lemma init_providers_witness :
  exists store,
    Singleton.init
      (Some [Singleton.mk_ProviderConfig (Some "main") None
                                         (Some "u1") (Some "t1");
             Singleton.mk_ProviderConfig (Some "main") (Some true)
                                         (Some "u2") (Some "t2");
             Singleton.mk_ProviderConfig None None (Some "u3") (Some "t3")])
    = inr store
    /\ Singleton.provider store = Singleton.mk_Alor "u2" "t2" true.
Proof.
  eexists. split; [reflexivity|].
  match goal with
  | |- Singleton.provider ?s = _ =>
      destruct (init_providers
                  (Some [Singleton.mk_ProviderConfig (Some "main") None
                                                     (Some "u1") (Some "t1");
                         Singleton.mk_ProviderConfig (Some "main") (Some true)
                                                     (Some "u2") (Some "t2");
                         Singleton.mk_ProviderConfig None None
                                                     (Some "u3") (Some "t3")])
                  s eq_refl)
        as (first & configs & Hgiven & _ & _ & Hdefault)
  end.
  injection Hgiven as <- <-. apply (inj Some).
  etrans; [exact Hdefault | reflexivity].
Defined.

(** A dict without [refresh_token] after a complete one. *)
Lemma init_errors_witness :
  Singleton.init
    (Some [Singleton.mk_ProviderConfig None None (Some "u1") (Some "t1");
           Singleton.mk_ProviderConfig (Some "iia") None (Some "u2") None])
  = inl (Singleton.KeyError "refresh_token").
Proof.
  destruct (init_errors
              (Some [Singleton.mk_ProviderConfig None None
                                                 (Some "u1") (Some "t1");
                     Singleton.mk_ProviderConfig (Some "iia") None
                                                 (Some "u2") None]))
    as (_ & _ & _ & Hkey).
  apply (Hkey [Singleton.mk_ProviderConfig None None (Some "u1") (Some "t1")]
              (Singleton.mk_ProviderConfig (Some "iia") None (Some "u2") None)
              []).
  - reflexivity.
  - by repeat constructor.
  - reflexivity.
Defined.

(** [Store()] fails, [Store(providers=[p1])] makes the store, and
    [Store()] then returns it. *)
Lemma singleton_calls_witness :
  Singleton.calls
    Singleton.init
    ([None]
       ++ Some [Singleton.mk_ProviderConfig None None (Some "u1") (Some "t1")]
       :: [None])
    None
  = ([inl Singleton.TypeError;
      inr (Singleton.mk_Store
             [("default"%string, Singleton.mk_Alor "u1" "t1" false)]
             (Singleton.mk_Alor "u1" "t1" false));
      inr (Singleton.mk_Store
             [("default"%string, Singleton.mk_Alor "u1" "t1" false)]
             (Singleton.mk_Alor "u1" "t1" false))],
     Some (Singleton.mk_Store
             [("default"%string, Singleton.mk_Alor "u1" "t1" false)]
             (Singleton.mk_Alor "u1" "t1" false))).
Proof.
  destruct (singleton_calls Singleton.init [None]) as [_ Hmade].
  - constructor; [by eexists|constructor].
  - by rewrite (Hmade
                  (Some [Singleton.mk_ProviderConfig None None
                                                     (Some "u1") (Some "t1")])
                  (Singleton.mk_Store
                     [("default"%string, Singleton.mk_Alor "u1" "t1" false)]
                     (Singleton.mk_Alor "u1" "t1" false))
                  [None] eq_refl).
Defined.

(** A feed that names a provider the store does not hold. *)
Lemma select_provider_of_store_witness :
  Singleton.select_provider
    (Some "iia"%string)
    (Singleton.mk_Store
       [("default"%string, Singleton.mk_Alor "u1" "t1" false)]
       (Singleton.mk_Alor "u1" "t1" false))
  = inl (Singleton.KeyError "iia").
Proof.
  pose proof (select_provider_of_store
                (Some [Singleton.mk_ProviderConfig None None
                                                   (Some "u1") (Some "t1")])
                _ (Some "iia"%string) eq_refl) as Hpick.
  cbn in Hpick. destruct Hpick as (configs & Hgiven & Hpick).
  injection Hgiven as <-. exact Hpick.
Defined.
